(** * The video-processing handler of [app.py]

    A shallow embedding of the Flask handlers of [app.py]: the health
    check and the [/process-video] endpoint that downloads a video, runs
    the three Nerfstudio commands, uploads the exported model, records
    the job status in Firestore and removes the per-job directory.

    The handler is effectful: it reads and changes the file system and
    the document store, starts external commands, and handles the
    exceptions they raise.  The embedding threads an explicit state
    through a state-and-exception monad; everything the handler cannot
    decide by itself (what a command does, whether a transfer or a
    removal fails) is supplied by a [World] of oracles that see the
    whole state, including the history of calls.

    The trace keeps the calls to the collaborators, with their outcome,
    and the lines printed by the [except] clauses.  The progress lines
    printed along the way (several of them format wall-clock durations)
    change nothing in the control flow and are not part of the trace. *)

From Stdlib Require Import ZArith String Ascii List Bool Lia.
From stdpp Require Import base option gmap strings list sorting pretty.

Local Open Scope string_scope.
Local Open Scope Z_scope.
Local Open Scope list_scope.

(** ** Exceptions *)

(** What an external collaborator reports when it fails: the exception
    class and [str(e)]. *)
Record fault := Fault { cls : string; msg : string }.

(** Python exceptions below [Exception].  [subprocess.CalledProcessError]
    is kept apart because the handler has a clause of its own for it. *)
Inductive exn :=
| CalledProcessError (returncode : Z) (cmd : list string) (stderr : option string)
| PyError (f : fault).

Definition FileNotFoundError (m : string) : exn := PyError (Fault "FileNotFoundError" m).
Definition TypeError (m : string) : exn := PyError (Fault "TypeError" m).
Definition GenericException (m : string) : exn := PyError (Fault "Exception" m).

(** ** Paths ([posixpath]) *)

Definition is_sep (c : ascii) : bool := Ascii.eqb c "/"%char.

Fixpoint endswith_sep (s : string) : bool :=
  match s with
  | EmptyString => false
  | String c EmptyString => is_sep c
  | String _ r => endswith_sep r
  end.

(** [os.path.join(a, b)] *)
Definition os_path_join (a b : string) : string :=
  if String.prefix "/" b then b
  else if String.eqb a "" || endswith_sep a then a +:+ b
  else a +:+ "/" +:+ b.

(** [os.path.basename(p)]: what follows the last separator. *)
Fixpoint basename_from (cur p : string) : string :=
  match p with
  | EmptyString => cur
  | String c r => if is_sep c then basename_from r r else basename_from cur r
  end.

Definition os_path_basename (p : string) : string := basename_from p p.

Fixpoint has_sep (s : string) : bool :=
  match s with
  | EmptyString => false
  | String c r => is_sep c || has_sep r
  end.

Fixpoint drop_chars (n : nat) (s : string) : string :=
  match n, s with
  | O, _ => s
  | S n', String _ r => drop_chars n' r
  | S _, EmptyString => EmptyString
  end.

(** ** The file system *)

Inductive node := File | Dir.

#[global] Instance node_eq_dec : EqDecision node.
Proof. solve_decision. Defined.

(** Absolute path names to nodes.  Path names are compared as written. *)
Abbreviation FS := (gmap string node).

Definition os_path_exists (fs : FS) (p : string) : bool :=
  match fs !! p with Some _ => true | None => false end.

Definition os_path_isdir (fs : FS) (p : string) : bool :=
  match fs !! p with Some Dir => true | _ => false end.

(** [k] names an immediate entry of directory [d]: the entry's name. *)
Definition child_name (d k : string) : option string :=
  let pre := d +:+ "/" in
  if String.prefix pre k then
    let n := drop_chars (String.length pre) k in
    if negb (String.eqb n "") && negb (has_sep n) then Some n else None
  else None.

(** [q] is [p] or lies below it. *)
Definition under (p q : string) : bool :=
  String.eqb p q || String.prefix (p +:+ "/") q.

(** The proper ancestors of a path, outermost first. *)
Fixpoint ancestors_from (acc p : string) : list string :=
  match p with
  | EmptyString => []
  | String c r =>
      (if is_sep c && negb (String.eqb acc "") then [acc] else [])
        ++ ancestors_from (acc +:+ String c EmptyString) r
  end.

Definition ancestors (p : string) : list string := ancestors_from "" p.

Definition remove_tree (p : string) (fs : FS) : FS :=
  filter (λ kv, under p kv.1 = false) fs.

Definition make_dirs (p : string) (fs : FS) : FS :=
  <[p := Dir]> (foldr (λ a m, <[a := Dir]> m) fs (ancestors p)).

(** ** Decoded JSON

    What [request.get_json()] returns.  Numbers are integers here: for
    this handler a float behaves as an integer with the same
    truthiness.  An object is the list of its items, looked up by the
    first match. *)

#[local] Unset Elimination Schemes.
Inductive json :=
| JNull
| JBool (b : bool)
| JNum (n : Z)
| JStr (s : string)
| JArr (items : list json)
| JObj (fields : list (string * json)).
#[local] Set Elimination Schemes.

(** Python truthiness of a decoded value. *)
Definition truthy (j : json) : bool :=
  match j with
  | JNull => false
  | JBool b => b
  | JNum n => negb (n =? 0)
  | JStr s => negb (String.eqb s "")
  | JArr l => match l with [] => false | _ => true end
  | JObj o => match o with [] => false | _ => true end
  end.

Fixpoint assoc (k : string) (o : list (string * json)) : option json :=
  match o with
  | [] => None
  | (k', v) :: r => if String.eqb k k' then Some v else assoc k r
  end.

Fixpoint substring_of (needle hay : string) : bool :=
  String.prefix needle hay ||
  match hay with
  | EmptyString => false
  | String _ r => substring_of needle r
  end.

Definition is_str (k : string) (j : json) : bool :=
  match j with JStr s => String.eqb s k | _ => false end.

(** [k in data] *)
Definition py_contains (k : string) (data : json) : exn + bool :=
  match data with
  | JObj o => inr (match assoc k o with Some _ => true | None => false end)
  | JArr l => inr (existsb (is_str k) l)
  | JStr s => inr (substring_of k s)
  | JNum _ => inl (TypeError "argument of type 'int' is not iterable")
  | JBool _ => inl (TypeError "argument of type 'bool' is not iterable")
  | JNull => inl (TypeError "argument of type 'NoneType' is not iterable")
  end.

(** [data[k]] *)
Definition py_getitem (k : string) (data : json) : exn + json :=
  match data with
  | JObj o =>
      match assoc k o with
      | Some v => inr v
      | None => inl (PyError (Fault "KeyError" k))
      end
  | JArr _ => inl (TypeError "list indices must be integers or slices, not str")
  | JStr _ => inl (TypeError "string indices must be integers")
  | JNum _ => inl (TypeError "'int' object is not subscriptable")
  | JBool _ => inl (TypeError "'bool' object is not subscriptable")
  | JNull => inl (TypeError "'NoneType' object is not subscriptable")
  end.

(** [data.get(k, default)] *)
Definition py_get (k : string) (default : json) (data : json) : exn + json :=
  match data with
  | JObj o => inr (match assoc k o with Some v => v | None => default end)
  | _ => inl (PyError (Fault "AttributeError" "object has no attribute 'get'"))
  end.

(** ** State, trace and the outside world *)

(** What the handler did, oldest first, with the outcome of each call. *)
Inductive event :=
| EvDownload (storage_path local_path : string) (ok : bool)
| EvRun (cmd : list string) (exit_status : option Z)
| EvUpload (local_path storage_path : string) (ok : bool)
| EvStatus (doc_id : json) (status : string) (splat_url : option string) (ok : bool)
| EvRmtree (path : string) (ok : bool)
| EvPrint (line : string).

(** The [discoveries] collection: document id to fields. *)
Abbreviation Store := (gmap string (gmap string string)).

Record State := mkState {
  st_fs : FS;
  st_store : Store;
  st_trace : list event
}.

Definition set_fs (fs : FS) (s : State) : State :=
  mkState fs (st_store s) (st_trace s).
Definition set_store (d : Store) (s : State) : State :=
  mkState (st_fs s) d (st_trace s).
Definition log (e : event) (s : State) : State :=
  mkState (st_fs s) (st_store s) (st_trace s ++ [e]).

(** One run of an external command: it may fail to start, or it runs to
    an exit status, having written to its standard error and changed
    the file system. *)
Inductive proc_result :=
| NotStarted (f : fault)
| Exited (returncode : Z) (stderr_written : string) (fs' : FS).

(** The collaborators.  Each answer may depend on the state at the time
    of the call, trace included. *)
Record World := mkWorld {
  uuid4 : State -> string;
  mkdir_fault : State -> string -> option fault;
  blob_download : State -> string -> string -> option fault * FS;
  process_run : State -> list string -> proc_result;
  blob_upload : State -> string -> string -> fault + string;
  firestore_fault : State -> string -> gmap string string -> option fault;
  rmtree_fault : State -> string -> option (fault * FS);
  py_format : json -> string
}.

(** The module-level handles; [None] when initialisation failed. *)
Inductive handle := Handle.
Record Deps := mkDeps { db : option handle; bucket : option handle }.

Definition initialized (d : Deps) : bool :=
  match db d, bucket d with
  | Some _, Some _ => true
  | _, _ => false
  end.

(** ** The monad *)

Definition M (A : Type) : Type := State -> (exn + A) * State.

Definition ret {A} (a : A) : M A := fun s => (inr a, s).
Definition raise {A} (e : exn) : M A := fun s => (inl e, s).
Definition bind {A B} (c : M A) (k : A -> M B) : M B :=
  fun s =>
    match c s with
    | (inr a, s') => k a s'
    | (inl e, s') => (inl e, s')
    end.
Definition lift {A} (r : exn + A) : M A := fun s => (r, s).
Definition get_fs : M FS := fun s => (inr (st_fs s), s).
Definition print (line : string) : M unit := fun s => (inr tt, log (EvPrint line) s).

(** [try: c except Exception as e: h e] *)
Definition try_except {A} (c : M A) (h : exn -> M A) : M A :=
  fun s =>
    match c s with
    | (inr a, s') => (inr a, s')
    | (inl e, s') => h e s'
    end.

Notation "'let*' x ':=' c 'in' k" := (bind c (fun x => k))
  (at level 10, x pattern, c at level 100, k at level 200).
Notation "c ';;' k" := (bind c (fun _ => k))
  (at level 100, k at level 200, right associativity).

(** ** Library calls *)

Definition quoted (p : string) : string := "'" +:+ p +:+ "'".

(** [os.listdir(d)], in the order the directory yields its entries. *)
Definition os_listdir (fs : FS) (d : string) : exn + list string :=
  match fs !! d with
  | None =>
      inl (FileNotFoundError ("[Errno 2] No such file or directory: " +:+ quoted d))
  | Some File =>
      inl (PyError (Fault "NotADirectoryError" ("[Errno 20] Not a directory: " +:+ quoted d)))
  | Some Dir => inr (omap (λ kv, child_name d kv.1) (map_to_list fs))
  end.

(** [os.makedirs(p, exist_ok=True)] *)
Definition os_makedirs_exist_ok (w : World) (p : string) : M unit :=
  fun s =>
    match st_fs s !! p with
    | Some Dir => (inr tt, s)
    | Some File =>
        (inl (PyError (Fault "FileExistsError" ("[Errno 17] File exists: " +:+ quoted p))), s)
    | None =>
        match mkdir_fault w s p with
        | Some f => (inl (PyError f), s)
        | None =>
            if existsb (λ a, bool_decide (st_fs s !! a = Some File)) (ancestors p)
            then (inl (PyError (Fault "NotADirectoryError"
                                  ("[Errno 20] Not a directory: " +:+ quoted p))), s)
            else (inr tt, set_fs (make_dirs p (st_fs s)) s)
        end
    end.

(** [shutil.rmtree(p)] *)
Definition shutil_rmtree (w : World) (p : string) : M unit :=
  fun s =>
    match st_fs s !! p with
    | None =>
        (inl (FileNotFoundError ("[Errno 2] No such file or directory: " +:+ quoted p)),
         log (EvRmtree p false) s)
    | Some File =>
        (inl (PyError (Fault "NotADirectoryError" ("[Errno 20] Not a directory: " +:+ quoted p))),
         log (EvRmtree p false) s)
    | Some Dir =>
        match rmtree_fault w s p with
        | Some (f, fs') => (inl (PyError f), log (EvRmtree p false) (set_fs fs' s))
        | None => (inr tt, log (EvRmtree p true) (set_fs (remove_tree p (st_fs s)) s))
        end
    end.

Record CompletedProcess := mkCompleted {
  cp_args : list string;
  cp_returncode : Z;
  cp_stderr : option string
}.

(** [subprocess.run(cmd, stderr=..., check=...)].  The standard error of
    the command reaches the caller only when it is piped
    ([stderr=PIPE] or [capture_output=True]); by default it is
    inherited and both [CompletedProcess.stderr] and
    [CalledProcessError.stderr] are [None]. *)
Definition subprocess_run (w : World) (cmd : list string)
    (stderr_pipe check : bool) : M CompletedProcess :=
  fun s =>
    match process_run w s cmd with
    | NotStarted f => (inl (PyError f), log (EvRun cmd None) s)
    | Exited rc err fs' =>
        let s' := log (EvRun cmd (Some rc)) (set_fs fs' s) in
        let captured := if stderr_pipe then Some err else None in
        if check && negb (rc =? 0)
        then (inl (CalledProcessError rc cmd captured), s')
        else (inr (mkCompleted cmd rc captured), s')
    end.

(** [db.collection('discoveries').document(doc_id).update(update_data)]:
    merges the fields into an existing document.  A document reference
    needs a string id ([None] makes a fresh id, which names no
    document). *)
Definition doc_update (w : World) (doc_id : json) (update_data : gmap string string) : M unit :=
  fun s =>
    match doc_id with
    | JStr k =>
        match firestore_fault w s k update_data with
        | Some f => (inl (PyError f), s)
        | None =>
            match st_store s !! k with
            | Some old => (inr tt, set_store (<[k := update_data ∪ old]> (st_store s)) s)
            | None => (inl (PyError (Fault "NotFound" ("404 No document to update: " +:+ k))), s)
            end
        end
    | JNull => (inl (PyError (Fault "NotFound" "404 No document to update")), s)
    | _ => (inl (TypeError "document path element is not a string"), s)
    end.

Definition repr_list (l : list string) : string :=
  "[" +:+ String.concat ", " (map quoted l) +:+ "]".

(** [str(e)] *)
Definition exn_str (e : exn) : string :=
  match e with
  | PyError f => msg f
  | CalledProcessError rc cmd _ =>
      "Command '" +:+ repr_list cmd +:+ "' returned non-zero exit status "
        +:+ pretty rc +:+ "."
  end.

Definition fmt_opt (o : option string) : string :=
  match o with None => "None" | Some s => s end.

(** ** Helper functions of [app.py] *)

Definition download_video (w : World) (d : Deps) (storage_path local_path : string) : M unit :=
  match bucket d with
  | None => raise (GenericException "Firebase Storage bucket not initialized. Cannot download.")
  | Some _ =>
      fun s =>
        match blob_download w s storage_path local_path with
        | (Some f, fs') =>
            (inl (PyError f), log (EvDownload storage_path local_path false) (set_fs fs' s))
        | (None, fs') =>
            (inr tt, log (EvDownload storage_path local_path true) (set_fs fs' s))
        end
  end.

Definition upload_splat (w : World) (d : Deps) (local_ply_path storage_path : string) : M string :=
  match bucket d with
  | None => raise (GenericException "Firebase Storage bucket not initialized. Cannot upload.")
  | Some _ =>
      fun s =>
        match blob_upload w s local_ply_path storage_path with
        | inl f => (inl (PyError f), log (EvUpload local_ply_path storage_path false) s)
        | inr public_url => (inr public_url, log (EvUpload local_ply_path storage_path true) s)
        end
  end.

Definition truthy_url (splat_url : option string) : bool :=
  match splat_url with
  | Some u => negb (String.eqb u "")
  | None => false
  end.

Definition is_ok {A} (r : exn + A) : bool :=
  match r with inr _ => true | inl _ => false end.

(** Every call is recorded, with its arguments and whether it returned. *)
Definition update_firestore (w : World) (d : Deps) (doc_id : json) (status : string)
    (splat_url : option string) : M unit :=
  fun s =>
    let r :=
      match db d with
      | None =>
          raise (GenericException "Firestore client not initialized. Cannot update status.") s
      | Some _ =>
          let update_data : gmap string string := {[ "processingStatus" := status ]} in
          let update_data :=
            if truthy_url splat_url
            then <["splatModelUrl" := default "" splat_url]> update_data
            else update_data in
          doc_update w doc_id update_data s
      end in
    (r.1, log (EvStatus doc_id status splat_url (is_ok r.1)) r.2).

(** ** The health check *)

Inductive body :=
| HealthBody (status : string) (firebase_initialized : bool)
| ErrorBody (error : string) (details : option string)
| DoneBody (status : string) (splatUrl : string).

Record Response := mkResponse { resp_body : body; resp_code : Z }.

Definition health_check (d : Deps) : Response :=
  mkResponse (HealthBody "healthy" (initialized d)) 200.

(** ** The processing endpoint *)

Record Job := mkJob {
  job_id : string;
  job_dir : string;
  video_storage_path : string;
  doc_id : json;
  user_id : json;
  local_video_path : string;
  data_dir : string;
  output_dir : string
}.

Definition tag (j : Job) : string := "[" +:+ job_id j +:+ "] ".

(** A decoded value inside an f-string. *)
Definition fmt (w : World) (v : json) : string :=
  match v with JStr s => s | _ => py_format w v end.

Definition bad_request : Response :=
  mkResponse
    (ErrorBody "Missing 'videoStoragePath' or 'firestoreDocId' in JSON payload" None) 400.

(** Lines 109 to 126: decode and check the request, make the job
    directory, name the paths.  [inl] is the early [400] return. *)
Definition start_job (w : World) (req : fault + json) : M (Response + Job) :=
  let* data := lift (match req with inl f => inl (PyError f) | inr v => inr v end) in
  if negb (truthy data) then ret (inl bad_request) else
  let* has_path := lift (py_contains "videoStoragePath" data) in
  if negb has_path then ret (inl bad_request) else
  let* has_doc := lift (py_contains "firestoreDocId" data) in
  if negb has_doc then ret (inl bad_request) else
  let* video_storage_path := lift (py_getitem "videoStoragePath" data) in
  let* doc_id := lift (py_getitem "firestoreDocId" data) in
  let* user_id := lift (py_get "userId" (JStr "unknown_user") data) in
  let* job_id := (fun s => (inr (uuid4 w s), s)) in
  let base_work_dir := "/tmp/nerfstudio_jobs" in
  let job_dir := os_path_join base_work_dir job_id in
  os_makedirs_exist_ok w job_dir ;;
  match video_storage_path with
  | JStr video_storage_path =>
      let local_video_path := os_path_join job_dir (os_path_basename video_storage_path) in
      let data_dir := os_path_join job_dir "nerf_data" in
      let output_dir := os_path_join job_dir "nerf_output" in
      ret (inr (mkJob job_id job_dir video_storage_path doc_id user_id
                      local_video_path data_dir output_dir))
  | _ => raise (TypeError "expected str, bytes or os.PathLike object")
  end.

Definition process_cmd (j : Job) : list string :=
  ["ns-process-data"; "video";
   "--data"; local_video_path j;
   "--output-dir"; data_dir j;
   "--verbose"].

Definition train_cmd (j : Job) : list string :=
  ["ns-train"; "splatfacto";
   "--data"; data_dir j;
   "--output-dir"; output_dir j;
   "--vis"; "none";
   "--max-num-iterations"; "5000";
   "--pipeline.model.sh-degree"; "0"].

Definition ply_output_filename : string := "splat.ply".

Definition export_cmd (j : Job) (config_path : string) : list string :=
  ["ns-export"; "gaussian-splat";
   "--load-config"; config_path;
   "--output-dir"; output_dir j;
   "--output-name"; ply_output_filename].

Definition splatfacto_output_dir (j : Job) : string :=
  os_path_join (output_dir j) "splatfacto".

Definition ply_output_path (j : Job) : string :=
  os_path_join (output_dir j) ply_output_filename.

(** [l[-1]] *)
Definition py_last (l : list string) : exn + string :=
  match last l with
  | Some x => inr x
  | None => inl (PyError (Fault "IndexError" "list index out of range"))
  end.

(** [list.sort()] on strings: ascending, compared character by
    character ([String.le] is the lexicographic order on the character
    codes; names are byte strings here, on which the order of UTF-8
    encodings agrees with Python's order on code points). *)
Definition list_sort (l : list string) : list string := merge_sort String.le l.

(** Lines 166 to 168: the immediate subdirectories of [parent], sorted by
    name, and the last of them. *)
Definition training_dirs (fs : FS) (parent : string) : exn + list string :=
  match os_listdir fs parent with
  | inl e => inl e
  | inr entries =>
      inr (list_sort (List.filter (λ d, os_path_isdir fs (os_path_join parent d)) entries))
  end.

Definition latest_training_dir (fs : FS) (parent : string) : exn + string :=
  match training_dirs fs parent with
  | inl e => inl e
  | inr dirs =>
      match py_last dirs with
      | inl e => inl e
      | inr d => inr (os_path_join parent d)
      end
  end.

(** Lines 164 to 173: find [config.yml] of the latest training run. *)
Definition find_config (j : Job) : M string :=
  try_except
    (let* fs := get_fs in
     let* latest := lift (latest_training_dir fs (splatfacto_output_dir j)) in
     let config_path := os_path_join latest "config.yml" in
     if negb (os_path_exists fs config_path)
     then raise (FileNotFoundError "config.yml missing")
     else ret config_path)
    (fun find_err =>
       print (tag j +:+ "Error finding config.yml automatically: " +:+ exn_str find_err) ;;
       raise (FileNotFoundError
                ("Could not find config.yml in " +:+ splatfacto_output_dir j))).

Definition acquire (w : World) (d : Deps) (j : Job) : M unit :=
  download_video w d (video_storage_path j) (local_video_path j).

Definition preprocess (w : World) (j : Job) : M CompletedProcess :=
  subprocess_run w (process_cmd j) false true.

Definition train (w : World) (j : Job) : M CompletedProcess :=
  subprocess_run w (train_cmd j) false true.

Definition export (w : World) (j : Job) (config_path : string) : M CompletedProcess :=
  subprocess_run w (export_cmd j config_path) false true.

(** Lines 188 and 189. *)
Definition check_artifact (j : Job) : M unit :=
  let* fs := get_fs in
  if negb (os_path_exists fs (ply_output_path j))
  then raise (FileNotFoundError
                ("Output PLY file not found after export at: " +:+ ply_output_path j))
  else ret tt.

Definition splat_storage_path (w : World) (j : Job) : string :=
  "splat-models/" +:+ fmt w (user_id j) +:+ "/" +:+ fmt w (doc_id j) +:+ ".ply".

Definition job_done (public_url : string) : Response :=
  mkResponse (DoneBody "processing complete" public_url) 200.

(** Lines 195 to 209: upload, record [complete], remove the job
    directory, answer. *)
Definition publish (w : World) (d : Deps) (j : Job) : M Response :=
  let* public_url := upload_splat w d (ply_output_path j) (splat_storage_path w j) in
  update_firestore w d (doc_id j) "complete" (Some public_url) ;;
  shutil_rmtree w (job_dir j) ;;
  ret (job_done public_url).

(** The body of the inner [try], lines 129 to 209. *)
Definition pipeline (w : World) (d : Deps) (j : Job) : M Response :=
  acquire w d j ;;
  preprocess w j ;;
  train w j ;;
  let* config_path := find_config j in
  export w j config_path ;;
  check_artifact j ;;
  publish w d j.

(** What is left of the pipeline once training has returned. *)
Definition rest_after_train (w : World) (d : Deps) (j : Job) : M Response :=
  let* config_path := find_config j in
  export w j config_path ;;
  check_artifact j ;;
  publish w d j.

(** What both [except] clauses of the inner [try] do after their first
    two prints: record [failed] (a failure to do so is printed), then
    remove the job directory if it exists. *)
Definition mark_failed_and_clean (w : World) (d : Deps) (j : Job) : M unit :=
  try_except
    (update_firestore w d (doc_id j) "failed" None)
    (fun db_err =>
       print (tag j +:+ "Also failed to update Firestore status to failed: "
                +:+ exn_str db_err)) ;;
  print (tag j +:+ "Cleaning up failed job directory: " +:+ job_dir j) ;;
  let* fs := get_fs in
  if os_path_exists fs (job_dir j) then shutil_rmtree w (job_dir j) else ret tt.

(** [except subprocess.CalledProcessError as e], lines 212 to 222. *)
Definition on_called_process_error (w : World) (d : Deps) (j : Job)
    (returncode : Z) (stderr : option string) : M Response :=
  let error_message :=
    "Nerfstudio command failed (Code " +:+ pretty returncode +:+ "). Check RunPod logs." in
  print (tag j +:+ error_message) ;;
  print (tag j +:+ "Stderr: " +:+ fmt_opt stderr) ;;
  mark_failed_and_clean w d j ;;
  ret (mkResponse (ErrorBody "Nerfstudio processing failed" (Some error_message)) 500).

(** [except Exception as e], lines 224 to 233. *)
Definition on_exception (w : World) (d : Deps) (j : Job) (e : exn) : M Response :=
  let error_message := "An error occurred during processing: " +:+ exn_str e in
  print (tag j +:+ error_message) ;;
  mark_failed_and_clean w d j ;;
  ret (mkResponse
         (ErrorBody "An internal server error occurred during processing"
                    (Some error_message)) 500).

(** The clause of the inner [try] that takes exception [e]. *)
Definition on_failure (w : World) (d : Deps) (j : Job) (e : exn) : M Response :=
  match e with
  | CalledProcessError returncode _ stderr => on_called_process_error w d j returncode stderr
  | PyError _ => on_exception w d j e
  end.

(** The inner [try] with its two clauses, lines 128 to 233. *)
Definition run_job (w : World) (d : Deps) (j : Job) : M Response :=
  try_except (pipeline w d j) (on_failure w d j).

Definition not_ready : Response :=
  mkResponse
    (ErrorBody "Backend not fully initialized (Firebase connection missing)." None) 503.

(** The outer [except Exception as e], lines 236 to 239. *)
Definition on_request_error (e : exn) (s : State) : Response * State :=
  let error_message := "Error handling request: " +:+ exn_str e in
  (mkResponse (ErrorBody "Failed to handle request" (Some error_message)) 500,
   log (EvPrint ("[PRE-JOB ERROR] " +:+ error_message)) s).

(** The outer [try]: what it returns is the answer, what it raises goes
    to the outer clause. *)
Definition answer (rs : (exn + Response) * State) : Response * State :=
  match rs with
  | (inr resp, s') => (resp, s')
  | (inl e, s') => on_request_error e s'
  end.

(** [process_video_endpoint], lines 98 to 239.  [req] is what
    [request.get_json()] gives: the decoded body, or the exception it
    raises. *)
Definition process_video_endpoint (w : World) (d : Deps) (req : fault + json)
    (s : State) : Response * State :=
  if negb (initialized d)
  then (not_ready,
        log (EvPrint "Error: Firebase not initialized. Check environment variables and key.") s)
  else
    answer ((let* r := start_job w req in
             match r with
             | inl early => ret early
             | inr j => run_job w d j
             end) s).

(** ** Reading a trace *)

(** The commands started, in order. *)
Definition runs (t : list event) : list (list string) :=
  omap (λ e, match e with EvRun c _ => Some c | _ => None end) t.

(** The status writes attempted, in order: document, status, and whether
    the write succeeded. *)
Definition status_writes (t : list event) : list (json * string * bool) :=
  omap (λ e, match e with EvStatus i st _ ok => Some (i, st, ok) | _ => None end) t.

(** The uploads attempted. *)
Definition uploads (t : list event) : list string :=
  omap (λ e, match e with EvUpload p _ _ => Some p | _ => None end) t.

(** The lines printed by the error clauses. *)
Definition prints (t : list event) : list string :=
  omap (λ e, match e with EvPrint l => Some l | _ => None end) t.

(** Some [shutil.rmtree] raised. *)
Definition removal_failed (t : list event) : bool :=
  existsb (λ e, match e with EvRmtree _ false => true | _ => false end) t.

(** A computation that writes no status and fails at no removal. *)
Definition quiet {A} (c : M A) : Prop :=
  ∀ s, ∃ evs,
    st_trace (c s).2 = st_trace s ++ evs ∧
    status_writes evs = [] ∧ removal_failed evs = false.

(** How the body of the inner [try] can end, started in [s]: it returns
    after one successful write of [complete] and the removal of the job
    directory; or it raises, having written nothing, or after the write of
    [complete] failed, or after a removal failed. *)
Definition pipeline_outcome (j : Job) (s : State) (rs : (exn + Response) * State) : Prop :=
  ∃ evs,
    st_trace rs.2 = st_trace s ++ evs ∧
    match rs.1 with
    | inr _ =>
        status_writes evs = [(doc_id j, "complete", true)] ∧
        removal_failed evs = false ∧
        st_fs rs.2 !! job_dir j = None
    | inl _ =>
        (removal_failed evs = false ∧
         (status_writes evs = [] ∨ status_writes evs = [(doc_id j, "complete", false)]))
        ∨ (removal_failed evs = true ∧ status_writes evs = [(doc_id j, "complete", true)])
    end.

(** The [processingStatus] field of a document. *)
Definition recorded_status (st : Store) (k : string) : option string :=
  st !! k ≫= (λ doc, doc !! "processingStatus").

(** ** Start-up

    Lines 17 to 48, run once when the module is loaded: read the two
    environment variables, build the credentials, initialise the SDK and
    take the two handles.  Any exception is printed and swallowed, which
    leaves the handles not yet assigned at [None]. *)

(** The Firebase SDK at start-up. *)
Record Sdk := mkSdk {
  json_loads : string -> fault + json;
  credentials_Certificate : json -> option fault;
  initialize_app : json -> string -> option fault;
  firestore_client : option fault;
  storage_bucket : option fault
}.

Inductive sdk_call :=
| CallJsonLoads (text : string)
| CallCertificate (info : json)
| CallInitializeApp (info : json) (storage_bucket_name : string)
| CallFirestoreClient
| CallStorageBucket.

Record Boot := mkBoot {
  boot_deps : Deps;
  boot_calls : list sdk_call;
  boot_log : list string
}.

(** [os.environ.get(name)] seen as a condition: unset and empty are
    both false. *)
Definition env_set (v : option string) : bool :=
  match v with
  | Some x => negb (String.eqb x "")
  | None => false
  end.

Definition boot_failed (db : option handle) (calls : list sdk_call) (before : list string)
    (e : string) : Boot :=
  mkBoot (mkDeps db None) calls
         (before ++ ["CRITICAL: Failed to initialize Firebase Admin SDK: " +:+ e]).

Definition init_firebase (environ : string -> option string) (sdk : Sdk) : Boot :=
  let SERVICE_ACCOUNT_JSON_STRING := environ "FIREBASE_SERVICE_ACCOUNT_JSON" in
  let STORAGE_BUCKET_NAME := environ "FIREBASE_STORAGE_BUCKET" in
  if negb (env_set SERVICE_ACCOUNT_JSON_STRING) then
    boot_failed None []
      ["CRITICAL ERROR: Environment variable FIREBASE_SERVICE_ACCOUNT_JSON not found. Cannot initialize Firebase."]
      "Environment variable FIREBASE_SERVICE_ACCOUNT_JSON is not set."
  else if negb (env_set STORAGE_BUCKET_NAME) then
    boot_failed None []
      ["CRITICAL ERROR: Environment variable FIREBASE_STORAGE_BUCKET not found. Cannot initialize Firebase."]
      "Environment variable FIREBASE_STORAGE_BUCKET is not set."
  else
    let text := default "" SERVICE_ACCOUNT_JSON_STRING in
    let name := default "" STORAGE_BUCKET_NAME in
    match json_loads sdk text with
    | inl f => boot_failed None [CallJsonLoads text] [] (msg f)
    | inr service_account_info =>
        let calls := [CallJsonLoads text; CallCertificate service_account_info] in
        match credentials_Certificate sdk service_account_info with
        | Some f => boot_failed None calls [] (msg f)
        | None =>
            let calls := calls ++ [CallInitializeApp service_account_info name] in
            match initialize_app sdk service_account_info name with
            | Some f => boot_failed None calls [] (msg f)
            | None =>
                let calls := calls ++ [CallFirestoreClient] in
                match firestore_client sdk with
                | Some f => boot_failed None calls [] (msg f)
                | None =>
                    let calls := calls ++ [CallStorageBucket] in
                    match storage_bucket sdk with
                    | Some f => boot_failed (Some Handle) calls [] (msg f)
                    | None =>
                        mkBoot (mkDeps (Some Handle) (Some Handle)) calls
                          ["Firebase Admin SDK initialized successfully using Environment Variables. Target bucket: " +:+ name]
                    end
                end
            end
        end
    end.

(** ** Relations between the state before and after *)

(** A computation keeps a relation between the state it starts in and
    the state it ends in. *)
Definition keeps {A} (R : State -> State -> Prop) (c : M A) : Prop :=
  ∀ s, R s (c s).2.

(** The trace has grown by events that all satisfy [P]. *)
Definition grows_by (P : event -> Prop) (s s' : State) : Prop :=
  ∃ evs, st_trace s' = st_trace s ++ evs ∧ Forall P evs.

(** The only calls a job may make: the download of its video, its three
    commands, the upload of its model, status writes to its document
    ([complete] with a URL, [failed] without), removals of its
    directory. *)
Definition job_event (w : World) (j : Job) (e : event) : Prop :=
  match e with
  | EvDownload sp lp _ => sp = video_storage_path j ∧ lp = local_video_path j
  | EvRun cmd _ => cmd = process_cmd j ∨ cmd = train_cmd j ∨ ∃ c, cmd = export_cmd j c
  | EvUpload lp sp _ => lp = ply_output_path j ∧ sp = splat_storage_path w j
  | EvStatus i st u _ =>
      i = doc_id j ∧ ((st = "complete" ∧ is_Some u) ∨ (st = "failed" ∧ u = None))
  | EvRmtree p _ => p = job_dir j
  | EvPrint _ => True
  end.

(** The store has changed at most in the two status fields of document
    [i]: the same documents exist, every other document and every other
    field is as before. *)
Definition status_fields_only (i : json) (st st' : Store) : Prop :=
  ∀ k,
    (JStr k ≠ i → st' !! k = st !! k) ∧
    (is_Some (st' !! k) ↔ is_Some (st !! k)) ∧
    (∀ f, f ≠ "processingStatus" → f ≠ "splatModelUrl" →
          st' !! k ≫= (λ doc, doc !! f) = st !! k ≫= (λ doc, doc !! f)).

Definition store_frame (i : json) (s s' : State) : Prop :=
  status_fields_only i (st_store s) (st_store s').

(** The calls of a trace, without the printed lines. *)
Definition calls (t : list event) : list event :=
  List.filter (λ e, match e with EvPrint _ => false | _ => true end) t.

(** The calls of a job in which nothing fails, in order. *)
Definition full_run (w : World) (j : Job) (config_path public_url : string) : list event :=
  [EvDownload (video_storage_path j) (local_video_path j) true;
   EvRun (process_cmd j) (Some 0);
   EvRun (train_cmd j) (Some 0);
   EvRun (export_cmd j config_path) (Some 0);
   EvUpload (ply_output_path j) (splat_storage_path w j) true;
   EvStatus (doc_id j) "complete" (Some public_url) true;
   EvRmtree (job_dir j) true].

(** The same call as [e], ending in failure. *)
Definition failure_of (e f : event) : Prop :=
  match e, f with
  | EvDownload sp lp _, EvDownload sp' lp' ok => sp' = sp ∧ lp' = lp ∧ ok = false
  | EvRun cmd _, EvRun cmd' r => cmd' = cmd ∧ r ≠ Some 0
  | EvUpload lp sp _, EvUpload lp' sp' ok => lp' = lp ∧ sp' = sp ∧ ok = false
  | EvStatus i st u _, EvStatus i' st' u' ok => i' = i ∧ st' = st ∧ u' = u ∧ ok = false
  | EvRmtree p _, EvRmtree p' ok => p' = p ∧ ok = false
  | _, _ => False
  end.

(** The calls of a pipeline that stopped at call number [k]: the first
    [k] calls of a full run, all successful, then possibly call [k]
    itself, failed. *)
Definition stopped_at (full : list event) (k : nat) (cs : list event) : Prop :=
  cs = take k full
  ∨ ∃ e f, full !! k = Some e ∧ failure_of e f ∧ cs = take k full ++ [f].

(** ** Scenarios

    A request, a state and a few worlds to run the handler on. *)

Definition demo_request : fault + json :=
  inr (JObj [("videoStoragePath", JStr "videos/u1/clip.webm");
             ("firestoreDocId", JStr "doc1");
             ("userId", JStr "u1")]).

Definition demo_deps : Deps := mkDeps (Some Handle) (Some Handle).

Definition demo_state : State :=
  mkState {[ "/tmp" := Dir ]}
          {[ "doc1" := {[ "processingStatus" := "pending" ]} ]}
          [].

Definition demo_job : Job :=
  mkJob "job-1" "/tmp/nerfstudio_jobs/job-1" "videos/u1/clip.webm"
        (JStr "doc1") (JStr "u1")
        "/tmp/nerfstudio_jobs/job-1/clip.webm"
        "/tmp/nerfstudio_jobs/job-1/nerf_data"
        "/tmp/nerfstudio_jobs/job-1/nerf_output".

Definition add_nodes (l : list (string * node)) (fs : FS) : FS :=
  foldr (λ kv m, <[kv.1 := kv.2]> m) fs l.

(** The three commands doing their work: a data set, two training runs
    with their [config.yml], the exported model. *)
Definition demo_run (s : State) (cmd : list string) : proc_result :=
  match cmd with
  | "ns-process-data" :: _ =>
      Exited 0 "" (add_nodes [(data_dir demo_job, Dir)] (st_fs s))
  | "ns-train" :: _ =>
      let out := output_dir demo_job in
      Exited 0 ""
        (add_nodes [(out, Dir);
                    (out +:+ "/splatfacto", Dir);
                    (out +:+ "/splatfacto/2024-01-01_000000", Dir);
                    (out +:+ "/splatfacto/2024-01-01_000000/config.yml", File);
                    (out +:+ "/splatfacto/2024-02-01_000000", Dir);
                    (out +:+ "/splatfacto/2024-02-01_000000/config.yml", File)]
                   (st_fs s))
  | "ns-export" :: _ =>
      Exited 0 "" (add_nodes [(ply_output_path demo_job, File)] (st_fs s))
  | _ => NotStarted (Fault "FileNotFoundError" "[Errno 2] No such file or directory")
  end.

(** Everything works. *)
Definition demo_world : World :=
  mkWorld (λ _, "job-1")
          (λ _ _, None)
          (λ s _ local_path, (None, <[local_path := File]> (st_fs s)))
          demo_run
          (λ _ _ storage_path, inr ("https://storage.googleapis.com/demo/" +:+ storage_path))
          (λ _ _ _, None)
          (λ _ _, None)
          (λ _, "?").

Definition with_process_run (f : State → list string → proc_result) (w : World) : World :=
  mkWorld (uuid4 w) (mkdir_fault w) (blob_download w) f (blob_upload w)
          (firestore_fault w) (rmtree_fault w) (py_format w).

Definition with_firestore_fault (f : State → string → gmap string string → option fault)
    (w : World) : World :=
  mkWorld (uuid4 w) (mkdir_fault w) (blob_download w) (process_run w) (blob_upload w)
          f (rmtree_fault w) (py_format w).

Definition with_rmtree_fault (f : State → string → option (fault * FS)) (w : World) : World :=
  mkWorld (uuid4 w) (mkdir_fault w) (blob_download w) (process_run w) (blob_upload w)
          (firestore_fault w) f (py_format w).

(** The file system once training has left two runs. *)
Definition trained_fs : FS :=
  let out := output_dir demo_job in
  add_nodes [("/tmp/nerfstudio_jobs", Dir);
             (job_dir demo_job, Dir);
             (out, Dir);
             (out +:+ "/splatfacto", Dir);
             (out +:+ "/splatfacto/2024-01-01_000000", Dir);
             (out +:+ "/splatfacto/2024-01-01_000000/config.yml", File);
             (out +:+ "/splatfacto/2024-02-01_000000", Dir);
             (out +:+ "/splatfacto/2024-02-01_000000/config.yml", File);
             (out +:+ "/splatfacto/notes.txt", File)]
            (st_fs demo_state).

(** Preprocessing exits with status 1 after writing to its standard
    error. *)
Definition preprocess_fails : World :=
  with_process_run
    (λ s cmd, match cmd with
              | "ns-process-data" :: _ => Exited 1 "CUDA out of memory" (st_fs s)
              | _ => demo_run s cmd
              end) demo_world.

(** Training exits with status 0 and leaves no run directory. *)
Definition train_leaves_nothing : World :=
  with_process_run
    (λ s cmd, match cmd with
              | "ns-train" :: _ =>
                  Exited 0 "" (add_nodes [(output_dir demo_job, Dir);
                                          (splatfacto_output_dir demo_job, Dir)] (st_fs s))
              | _ => demo_run s cmd
              end) demo_world.

(** The export exits with status 0 and writes no file. *)
Definition export_leaves_nothing : World :=
  with_process_run
    (λ s cmd, match cmd with
              | "ns-export" :: _ => Exited 0 "" (st_fs s)
              | _ => demo_run s cmd
              end) demo_world.

(** The store refuses the write of [complete] and accepts the others. *)
Definition complete_write_fails : World :=
  with_firestore_fault
    (λ _ _ update_data,
       if bool_decide (update_data !! "processingStatus" = Some "complete")
       then Some (Fault "ServiceUnavailable" "503 Deadline exceeded")
       else None) demo_world.

(** Every removal of a directory tree fails and removes nothing. *)
Definition permission_denied : State → string → option (fault * FS) :=
  λ s p, Some (Fault "PermissionError" ("[Errno 13] Permission denied: " +:+ quoted p),
               st_fs s).

Definition cleanup_fails : World := with_rmtree_fault permission_denied demo_world.

(** The first removal fails, later ones work. *)
Definition cleanup_fails_once : World :=
  with_rmtree_fault
    (λ s p, if removal_failed (st_trace s) then None else permission_denied s p)
    demo_world.

Definition preprocess_and_cleanup_fail : World :=
  with_rmtree_fault permission_denied preprocess_fails.

(** A request whose storage path climbs out of its directory. *)
Definition traversal_request : fault + json :=
  inr (JObj [("videoStoragePath", JStr "../../etc/cron.d/clip.webm");
             ("firestoreDocId", JStr "doc1")]).

Definition traversal_job : Job :=
  mkJob "job-1" "/tmp/nerfstudio_jobs/job-1" "../../etc/cron.d/clip.webm"
        (JStr "doc1") (JStr "unknown_user")
        "/tmp/nerfstudio_jobs/job-1/clip.webm"
        "/tmp/nerfstudio_jobs/job-1/nerf_data"
        "/tmp/nerfstudio_jobs/job-1/nerf_output".

(** An SDK in which every step works. *)
Definition demo_sdk : Sdk :=
  mkSdk (λ _, inr (JObj [("type", JStr "service_account")]))
        (λ _, None) (λ _ _, None) None None.

(** Both variables set. *)
Definition demo_environ (name : string) : option string :=
  if String.eqb name "FIREBASE_SERVICE_ACCOUNT_JSON" then Some "{...}"
  else if String.eqb name "FIREBASE_STORAGE_BUCKET" then Some "demo.appspot.com"
  else None.

(** No directory can be made. *)
Definition read_only_root : World :=
  mkWorld (uuid4 demo_world)
          (λ _ _, Some (Fault "OSError"
                          "[Errno 30] Read-only file system: '/tmp/nerfstudio_jobs'"))
          (blob_download demo_world) (process_run demo_world) (blob_upload demo_world)
          (firestore_fault demo_world) (rmtree_fault demo_world) (py_format demo_world).

(** A state in which the directory of the job already exists, with a
    file of an earlier run in it. *)
Definition collided_state : State :=
  mkState (add_nodes [("/tmp/nerfstudio_jobs", Dir);
                      (job_dir demo_job, Dir);
                      (job_dir demo_job +:+ "/stale.bin", File)] (st_fs demo_state))
          (st_store demo_state) [].

(** * Properties *)

(** ** Traces *)

Lemma runs_app t1 t2 : runs (t1 ++ t2) = runs t1 ++ runs t2.
Proof. apply omap_app. Qed.

Lemma status_writes_app t1 t2 :
  status_writes (t1 ++ t2) = status_writes t1 ++ status_writes t2.
Proof. apply omap_app. Qed.

Lemma uploads_app t1 t2 : uploads (t1 ++ t2) = uploads t1 ++ uploads t2.
Proof. apply omap_app. Qed.

Lemma removal_failed_app t1 t2 :
  removal_failed (t1 ++ t2) = removal_failed t1 || removal_failed t2.
Proof. apply existsb_app. Qed.

(** ** File system and store *)

Lemma remove_tree_gone p (fs : FS) : remove_tree p fs !! p = None.
Proof.
  unfold remove_tree. apply map_lookup_filter_None. right.
  intros x _. simpl. unfold under. rewrite String.eqb_refl. done.
Qed.

Lemma recorded_status_insert (st : Store) k status (old : gmap string string) :
  recorded_status (<[k := {[ "processingStatus" := status ]} ∪ old]> st) k = Some status.
Proof.
  unfold recorded_status. rewrite lookup_insert_eq. simpl.
  apply lookup_union_Some_l, lookup_singleton_eq.
Qed.

(** ** Sequencing *)

Lemma bind_ok {A B} (c : M A) (k : A → M B) s a s1 :
  c s = (inr a, s1) → bind c k s = k a s1.
Proof. unfold bind. by intros ->. Qed.

Lemma bind_raise {A B} (c : M A) (k : A → M B) s e s1 :
  c s = (inl e, s1) → bind c k s = (inl e, s1).
Proof. unfold bind. by intros ->. Qed.

Lemma bind_ok_inv {A B} (c : M A) (k : A → M B) s b s2 :
  bind c k s = (inr b, s2) → ∃ a s1, c s = (inr a, s1) ∧ k a s1 = (inr b, s2).
Proof.
  unfold bind. destruct (c s) as [[e|a] s1]; [discriminate|]. eauto.
Qed.

(** ** The failure clauses *)

Section Handlers.
Variables (w : World) (d : Deps) (j : Job).

(** Recording [failed] and cleaning up: one status write, then at most
    one removal; when no removal fails the job directory is gone. *)
Lemma mark_failed_and_clean_spec s :
  ∃ ok evs,
    st_trace (mark_failed_and_clean w d j s).2
      = st_trace s ++ EvStatus (doc_id j) "failed" None ok :: evs ∧
    runs evs = [] ∧ status_writes evs = [] ∧ uploads evs = [] ∧
    (removal_failed evs = false →
       (mark_failed_and_clean w d j s).1 = inr tt ∧
       st_fs (mark_failed_and_clean w d j s).2 !! job_dir j = None) ∧
    (ok = true → ∃ k, doc_id j = JStr k ∧
       recorded_status (st_store (mark_failed_and_clean w d j s).2) k = Some "failed") ∧
    (ok = false → st_store (mark_failed_and_clean w d j s).2 = st_store s).
Proof.
  unfold mark_failed_and_clean, update_firestore, doc_update, try_except, bind, print,
    get_fs, shutil_rmtree, os_path_exists, raise, ret.
  destruct (db d); simpl.
  - destruct (doc_id j) as [| | |k| |] eqn:Hd; simpl.
    all: try (destruct (firestore_fault w s k _) eqn:Hf; simpl;
              [| destruct (st_store s !! k) eqn:Hs; simpl]).
    all: destruct (st_fs s !! job_dir j) as [[|]|] eqn:Hfs; simpl; rewrite ?Hfs; simpl.
    all: try (match goal with |- context [rmtree_fault ?w ?s ?p] =>
               destruct (rmtree_fault w s p) as [[? ?]|] eqn:Hr; simpl end).
    all: rewrite <- ?app_assoc; simpl.
    all: eexists _, _; split; [reflexivity|].
    all: repeat split; try reflexivity; try discriminate; auto using remove_tree_gone.
    all: intros _; eexists; split; [reflexivity|]; apply recorded_status_insert.
  - destruct (st_fs s !! job_dir j) as [[|]|] eqn:Hfs; simpl; rewrite ?Hfs; simpl.
    all: try (match goal with |- context [rmtree_fault ?w ?s ?p] =>
               destruct (rmtree_fault w s p) as [[? ?]|] eqn:Hr; simpl end).
    all: rewrite <- ?app_assoc; simpl.
    all: eexists _, _; split; [reflexivity|].
    all: repeat split; try reflexivity; try discriminate; auto using remove_tree_gone.
Qed.

Lemma on_failure_spec e s :
  ∃ ok evs,
    st_trace (on_failure w d j e s).2 = st_trace s ++ evs ∧
    runs evs = [] ∧ status_writes evs = [(doc_id j, "failed", ok)] ∧ uploads evs = [] ∧
    (removal_failed evs = false →
       (∃ resp, (on_failure w d j e s).1 = inr resp ∧ resp_code resp = 500) ∧
       st_fs (on_failure w d j e s).2 !! job_dir j = None) ∧
    (ok = true → ∃ k, doc_id j = JStr k ∧
       recorded_status (st_store (on_failure w d j e s).2) k = Some "failed") ∧
    (ok = false → st_store (on_failure w d j e s).2 = st_store s) ∧
    (∀ resp, (on_failure w d j e s).1 = inr resp → resp_code resp = 500).
Proof.
  assert (Hgen : ∀ (pre : list event) s1 resp,
    st_trace s1 = st_trace s ++ pre →
    st_store s1 = st_store s →
    runs pre = [] → status_writes pre = [] → uploads pre = [] →
    removal_failed pre = false →
    resp_code resp = 500 →
    let rs := (mark_failed_and_clean w d j ;; ret resp) s1 in
    ∃ ok evs,
      st_trace rs.2 = st_trace s ++ evs ∧
      runs evs = [] ∧ status_writes evs = [(doc_id j, "failed", ok)] ∧ uploads evs = [] ∧
      (removal_failed evs = false →
         (∃ resp, rs.1 = inr resp ∧ resp_code resp = 500) ∧
         st_fs rs.2 !! job_dir j = None) ∧
      (ok = true → ∃ k, doc_id j = JStr k ∧
         recorded_status (st_store rs.2) k = Some "failed") ∧
      (ok = false → st_store rs.2 = st_store s) ∧
      (∀ resp, rs.1 = inr resp → resp_code resp = 500)).
  { intros pre s1 resp Hpre Hst Hr0 Hw0 Hu0 Hf0 Hcode. unfold bind, ret.
    destruct (mark_failed_and_clean_spec s1) as (ok & evs & Ht & Hr & Hw & Hu & Hc & Hs1 & Hs2).
    exists ok, (pre ++ EvStatus (doc_id j) "failed" None ok :: evs).
    assert (Htr : ∀ r s2, mark_failed_and_clean w d j s1 = (r, s2) →
              st_trace s2 = st_trace s ++ pre ++ EvStatus (doc_id j) "failed" None ok :: evs).
    { intros r s2 Hm. rewrite Hm in Ht. simpl in Ht. rewrite Ht, Hpre, <- app_assoc. done. }
    rewrite runs_app, status_writes_app, uploads_app, removal_failed_app, Hr0, Hw0, Hu0, Hf0.
    simpl. rewrite Hr, Hw, Hu.
    destruct (mark_failed_and_clean w d j s1) as [[e'|[]] s2] eqn:Hm; simpl in *.
    - split_and!; eauto.
      + intros Hf. destruct (Hc Hf) as [? _]. discriminate.
      + intros Hok. rewrite <- Hst. auto.
      + intros ? [=].
    - split_and!; eauto.
      + intros Hf. destruct (Hc Hf) as [_ ?]. eauto.
      + intros Hok. rewrite <- Hst. auto.
      + intros ? [= <-]. done. }
  destruct e as [rc cmd err|f]; simpl;
    unfold on_called_process_error, on_exception.
  - unfold bind at 1 2, print. simpl.
    eapply (Hgen [_; _]); simpl; rewrite <- ?app_assoc; done.
  - unfold bind at 1, print. simpl.
    eapply (Hgen [_]); simpl; done.
Qed.

(** When the client is there, the document exists and the store does
    not fail, the write of [failed] succeeds and the document holds
    [failed] when the clause is done. *)
Lemma mark_failed_and_clean_written s k :
  doc_id j = JStr k → is_Some (st_store s !! k) → is_Some (db d) →
  (∀ st data, firestore_fault w st k data = None) →
  ∃ evs,
    st_trace (mark_failed_and_clean w d j s).2
      = st_trace s ++ EvStatus (doc_id j) "failed" None true :: evs ∧
    status_writes evs = [] ∧
    recorded_status (st_store (mark_failed_and_clean w d j s).2) k = Some "failed".
Proof.
  intros Hd [old Hold] [h Hdb] Hnf.
  unfold mark_failed_and_clean, update_firestore, doc_update, try_except, bind, print,
    get_fs, shutil_rmtree, os_path_exists, raise, ret.
  rewrite Hdb, Hd. simpl. rewrite Hnf, Hold. simpl.
  destruct (st_fs s !! job_dir j) as [[|]|] eqn:Hfs; simpl; rewrite ?Hfs; simpl.
  all: try (match goal with |- context [rmtree_fault ?w ?s ?p] =>
             destruct (rmtree_fault w s p) as [[? ?]|] eqn:Hr; simpl end).
  all: rewrite <- ?app_assoc; simpl.
  all: eexists; split; [reflexivity|]; split; [reflexivity|apply recorded_status_insert].
Qed.

Lemma on_failure_written e s k :
  doc_id j = JStr k → is_Some (st_store s !! k) → is_Some (db d) →
  (∀ st data, firestore_fault w st k data = None) →
  ∃ evs,
    st_trace (on_failure w d j e s).2 = st_trace s ++ evs ∧
    status_writes evs = [(doc_id j, "failed", true)] ∧
    recorded_status (st_store (on_failure w d j e s).2) k = Some "failed".
Proof.
  intros Hd Hk Hdb Hnf.
  assert (Hgen : ∀ (pre : list event) s1 (resp : Response),
    st_trace s1 = st_trace s ++ pre → st_store s1 = st_store s →
    status_writes pre = [] →
    ∃ evs,
      st_trace ((mark_failed_and_clean w d j ;; ret resp) s1).2 = st_trace s ++ evs ∧
      status_writes evs = [(doc_id j, "failed", true)] ∧
      recorded_status (st_store ((mark_failed_and_clean w d j ;; ret resp) s1).2) k
      = Some "failed").
  { intros pre s1 resp Hpre Hst Hw0.
    destruct (mark_failed_and_clean_written s1 k) as (evs & Ht & Hw & Hrec);
      [done|by rewrite Hst|done|done|].
    exists (pre ++ EvStatus (doc_id j) "failed" None true :: evs).
    unfold bind, ret.
    destruct (mark_failed_and_clean w d j s1) as [[e'|[]] s2]; simpl in *.
    all: rewrite Ht, Hpre, <- app_assoc, status_writes_app, Hw0; simpl; rewrite Hw; done. }
  destruct e as [rc cmd err|f]; simpl; unfold on_called_process_error, on_exception.
  - unfold bind at 1 2, print. simpl.
    eapply (Hgen [_; _]); simpl; rewrite <- ?app_assoc; done.
  - unfold bind at 1, print. simpl.
    eapply (Hgen [_]); simpl; done.
Qed.
End Handlers.

(** ** The steps of the pipeline, one at a time *)

Section Steps.
Variables (w : World) (d : Deps) (j : Job).

Lemma acquire_ok s s1 :
  acquire w d j s = (inr tt, s1) →
  st_trace s1 = st_trace s ++ [EvDownload (video_storage_path j) (local_video_path j) true]
  ∧ st_store s1 = st_store s.
Proof.
  unfold acquire, download_video, raise. destruct (bucket d); [|discriminate].
  destruct (blob_download w s _ _) as [[f|] fs1]; intros [= <-]; done.
Qed.

Lemma subprocess_run_ok cmd s cp s1 :
  subprocess_run w cmd false true s = (inr cp, s1) →
  st_trace s1 = st_trace s ++ [EvRun cmd (Some 0)] ∧ st_store s1 = st_store s
  ∧ cp_returncode cp = 0.
Proof.
  unfold subprocess_run. destruct (process_run w s cmd) as [f|rc err fs1]; [discriminate|].
  simpl. destruct (rc =? 0) eqn:Hrc; simpl; [|discriminate].
  apply Z.eqb_eq in Hrc as ->. intros [= <- <-]. done.
Qed.

(** A command that exits with a non-zero status raises
    [CalledProcessError], and the error carries no standard error. *)
Lemma subprocess_run_nonzero cmd s rc err fs1 :
  process_run w s cmd = Exited rc err fs1 → rc ≠ 0 →
  subprocess_run w cmd false true s
    = (inl (CalledProcessError rc cmd None), log (EvRun cmd (Some rc)) (set_fs fs1 s)).
Proof.
  intros Hp Hrc. unfold subprocess_run. rewrite Hp. simpl.
  destruct (rc =? 0) eqn:E; [apply Z.eqb_eq in E; done|done].
Qed.

Lemma find_config_ok s c s1 : find_config j s = (inr c, s1) → s1 = s.
Proof.
  unfold find_config, try_except, bind, get_fs, lift, raise, ret, print.
  destruct (latest_training_dir _ _); simpl; [discriminate|].
  destruct (os_path_exists _ _); simpl; [|discriminate]. by intros [= _ <-].
Qed.

Lemma find_config_raise s e s1 :
  find_config j s = (inl e, s1) →
  e = FileNotFoundError ("Could not find config.yml in " +:+ splatfacto_output_dir j)
  ∧ (∃ line, st_trace s1 = st_trace s ++ [EvPrint line])
  ∧ st_store s1 = st_store s ∧ st_fs s1 = st_fs s.
Proof.
  unfold find_config, try_except, bind, get_fs, lift, raise, ret, print.
  destruct (latest_training_dir _ _); simpl.
  - intros [= <- <-]. eauto.
  - destruct (os_path_exists _ _); simpl; [discriminate|].
    intros [= <- <-]. eauto.
Qed.

Lemma check_artifact_ok s s1 : check_artifact j s = (inr tt, s1) → s1 = s.
Proof.
  unfold check_artifact, bind, get_fs, raise, ret.
  destruct (os_path_exists _ _); simpl; [|discriminate]. by intros [= <-].
Qed.

Lemma check_artifact_missing s :
  os_path_exists (st_fs s) (ply_output_path j) = false →
  check_artifact j s
    = (inl (FileNotFoundError
              ("Output PLY file not found after export at: " +:+ ply_output_path j)), s).
Proof. intros H. unfold check_artifact, bind, get_fs, raise. by rewrite H. Qed.
End Steps.

(** ** From the endpoint to the job *)

Lemma os_makedirs_trace w p s r s1 :
  os_makedirs_exist_ok w p s = (r, s1) → st_trace s1 = st_trace s ∧ st_store s1 = st_store s.
Proof.
  unfold os_makedirs_exist_ok.
  destruct (st_fs s !! p) as [[|]|]; [intros [= <- <-]; done..|].
  destruct (mkdir_fault w s p); [intros [= <- <-]; done|].
  destruct (existsb _ _); intros [= <- <-]; done.
Qed.

Lemma start_job_trace w req s r s0 :
  start_job w req s = (r, s0) → st_trace s0 = st_trace s ∧ st_store s0 = st_store s.
Proof.
  unfold start_job, bind, lift, ret, raise.
  destruct req as [f|data]; [intros [= <- <-]; done|].
  destruct (truthy data); simpl; [|intros [= <- <-]; done].
  destruct (py_contains "videoStoragePath" data) as [?|[|]]; simpl;
    [intros [= <- <-]; done| |intros [= <- <-]; done].
  destruct (py_contains "firestoreDocId" data) as [?|[|]]; simpl;
    [intros [= <- <-]; done| |intros [= <- <-]; done].
  destruct (py_getitem "videoStoragePath" data) as [?|v]; [intros [= <- <-]; done|].
  destruct (py_getitem "firestoreDocId" data) as [?|i]; [intros [= <- <-]; done|].
  destruct (py_get "userId" _ data) as [?|u]; [intros [= <- <-]; done|].
  destruct (os_makedirs_exist_ok w _ s) as [[e|[]] s1] eqn:Hm.
  all: apply os_makedirs_trace in Hm as [Ht Hs].
  - intros [= <- <-]. done.
  - destruct v; intros [= <- <-]; done.
Qed.

Lemma assoc_truthy k o v : assoc k o = Some v → truthy (JObj o) = true.
Proof. destruct o; [discriminate|done]. Qed.

(** What [start_job] does with an object that has both fields: it makes
    the job directory and then looks at the type of the path. *)
Lemma start_job_object w s o v i :
  assoc "videoStoragePath" o = Some v →
  assoc "firestoreDocId" o = Some i →
  start_job w (inr (JObj o)) s
  = match os_makedirs_exist_ok w (os_path_join "/tmp/nerfstudio_jobs" (uuid4 w s)) s with
    | (inl e, s1) => (inl e, s1)
    | (inr _, s1) =>
        match v with
        | JStr p =>
            let job_dir := os_path_join "/tmp/nerfstudio_jobs" (uuid4 w s) in
            (inr (inr (mkJob (uuid4 w s) job_dir p i
                         (default (JStr "unknown_user") (assoc "userId" o))
                         (os_path_join job_dir (os_path_basename p))
                         (os_path_join job_dir "nerf_data")
                         (os_path_join job_dir "nerf_output"))), s1)
        | _ => (inl (TypeError "expected str, bytes or os.PathLike object"), s1)
        end
    end.
Proof.
  intros Hv Hi. unfold start_job, bind, lift, ret, raise.
  rewrite (assoc_truthy _ _ _ Hv). simpl. rewrite Hv, Hi. simpl.
  destruct (os_makedirs_exist_ok w _ s) as [[e|[]] s1]; [done|].
  destruct (assoc "userId" o); destruct v; done.
Qed.

Lemma endpoint_of_job w d req s j s0 :
  initialized d = true →
  start_job w req s = (inr (inr j), s0) →
  process_video_endpoint w d req s = answer (run_job w d j s0).
Proof.
  intros Hi Hs. unfold process_video_endpoint. rewrite Hi. simpl.
  by rewrite (bind_ok _ _ _ _ _ Hs).
Qed.

(** A job whose pipeline raises: the matching clause records [failed]
    once, starts nothing and uploads nothing, and the answer is a 500. *)
Lemma endpoint_failure w d req s j s0 e sk pre :
  initialized d = true →
  start_job w req s = (inr (inr j), s0) →
  pipeline w d j s0 = (inl e, sk) →
  st_trace sk = st_trace s0 ++ pre →
  ∃ ok evs,
    st_trace (process_video_endpoint w d req s).2 = st_trace s ++ pre ++ evs ∧
    runs evs = [] ∧ status_writes evs = [(doc_id j, "failed", ok)] ∧ uploads evs = [] ∧
    resp_code (process_video_endpoint w d req s).1 = 500 ∧
    (ok = true → ∃ k, doc_id j = JStr k ∧
       recorded_status (st_store (process_video_endpoint w d req s).2) k = Some "failed") ∧
    (removal_failed evs = false →
       st_fs (process_video_endpoint w d req s).2 !! job_dir j = None).
Proof.
  intros Hi Hs Hp Hpre.
  rewrite (endpoint_of_job _ _ _ _ _ _ Hi Hs).
  apply start_job_trace in Hs as [Ht0 _].
  unfold run_job, try_except. rewrite Hp.
  destruct (on_failure_spec w d j e sk) as (ok & evs & Ht & Hr & Hw & Hu & Hc & Hs1 & _ & H500).
  destruct (on_failure w d j e sk) as [[e'|resp] s'] eqn:Hf; simpl in *.
  - exists ok, (evs ++ [EvPrint ("[PRE-JOB ERROR] " +:+ "Error handling request: " +:+ exn_str e')]).
    rewrite runs_app, status_writes_app, uploads_app, removal_failed_app, Hr, Hw, Hu, Ht, Hpre, Ht0.
    simpl. rewrite <- !app_assoc, orb_false_r. split_and!; auto.
    intros Hrm. by apply Hc.
  - exists ok, evs. rewrite Ht, Hpre, Ht0, <- !app_assoc. split_and!; auto.
    intros Hrm. by apply Hc.
Qed.


(** The same job, when the store can be written: the write of [failed]
    succeeds and the document holds [failed] at the end. *)
Lemma endpoint_failure_written w d req s j s0 e sk k :
  initialized d = true →
  start_job w req s = (inr (inr j), s0) →
  pipeline w d j s0 = (inl e, sk) →
  st_store sk = st_store s →
  doc_id j = JStr k → is_Some (st_store s !! k) →
  (∀ st data, firestore_fault w st k data = None) →
  ∃ evs,
    st_trace (process_video_endpoint w d req s).2 = st_trace sk ++ evs ∧
    status_writes evs = [(doc_id j, "failed", true)] ∧
    recorded_status (st_store (process_video_endpoint w d req s).2) k = Some "failed".
Proof.
  intros Hi Hs Hp Hst Hd Hk Hnf.
  rewrite (endpoint_of_job _ _ _ _ _ _ Hi Hs).
  unfold run_job, try_except. rewrite Hp.
  assert (Hdb : is_Some (db d)).
  { unfold initialized in Hi. destruct (db d); [eauto|discriminate]. }
  destruct (on_failure_written w d j e sk k) as (evs & Ht & Hw & Hrec);
    [done|by rewrite Hst|done|done|].
  destruct (on_failure w d j e sk) as [[e'|resp] s'] eqn:Hf; simpl in *.
  - exists (evs ++ [EvPrint ("[PRE-JOB ERROR] " +:+ "Error handling request: " +:+ exn_str e')]).
    rewrite Ht, <- app_assoc, status_writes_app, Hw. done.
  - exists evs. done.
Qed.

(** If a failed job made one status write, and the store could be
    written, that write succeeded. *)
Lemma failed_write_succeeded w d req s j s0 e sk k pre evs ok :
  initialized d = true →
  start_job w req s = (inr (inr j), s0) →
  pipeline w d j s0 = (inl e, sk) →
  st_trace sk = st_trace s ++ pre →
  st_store sk = st_store s →
  st_trace (process_video_endpoint w d req s).2 = st_trace s ++ pre ++ evs →
  status_writes evs = [(doc_id j, "failed", ok)] →
  doc_id j = JStr k → is_Some (st_store s !! k) →
  (∀ st data, firestore_fault w st k data = None) →
  ok = true ∧
  recorded_status (st_store (process_video_endpoint w d req s).2) k = Some "failed".
Proof.
  intros Hi Hs Hp Hpre Hst Ht Hw Hd Hk Hnf.
  destruct (endpoint_failure_written _ _ _ _ _ _ _ _ _ Hi Hs Hp Hst Hd Hk Hnf)
    as (evs' & Ht' & Hw' & Hrec).
  split; [|done].
  rewrite Hpre, <- app_assoc in Ht'. rewrite Ht' in Ht.
  apply app_inv_head, app_inv_head in Ht. subst evs'. congruence.
Qed.

(** ** Prefixes of the pipeline that succeed *)

Section Prefixes.
Variables (w : World) (d : Deps) (j : Job).

Lemma fit_ok s0 cp s3 :
  (acquire w d j ;; preprocess w j ;; train w j) s0 = (inr cp, s3) →
  st_trace s3 = st_trace s0 ++
    [EvDownload (video_storage_path j) (local_video_path j) true;
     EvRun (process_cmd j) (Some 0); EvRun (train_cmd j) (Some 0)]
  ∧ cp_returncode cp = 0
  ∧ pipeline w d j s0 = rest_after_train w d j s3.
Proof.
  intros H.
  apply bind_ok_inv in H as ([] & s1 & Ha & H).
  apply bind_ok_inv in H as (cp1 & s2 & Hp & Ht).
  destruct (acquire_ok _ _ _ _ _ Ha) as [T1 _].
  destruct (subprocess_run_ok _ _ _ _ _ Hp) as (T2 & _ & _).
  destruct (subprocess_run_ok _ _ _ _ _ Ht) as (T3 & _ & Hz).
  split_and!; [|done|].
  - rewrite T3, T2, T1, <- !app_assoc. done.
  - unfold pipeline.
    rewrite (bind_ok _ _ _ _ _ Ha), (bind_ok _ _ _ _ _ Hp), (bind_ok _ _ _ _ _ Ht). done.
Qed.

Lemma fit_store s0 cp s3 :
  (acquire w d j ;; preprocess w j ;; train w j) s0 = (inr cp, s3) →
  st_store s3 = st_store s0.
Proof.
  intros H.
  apply bind_ok_inv in H as ([] & s1 & Ha & H).
  apply bind_ok_inv in H as (cp1 & s2 & Hp & Ht).
  destruct (acquire_ok _ _ _ _ _ Ha) as [_ S1].
  destruct (subprocess_run_ok _ _ _ _ _ Hp) as (_ & S2 & _).
  destruct (subprocess_run_ok _ _ _ _ _ Ht) as (_ & S3 & _).
  by rewrite S3, S2, S1.
Qed.

Lemma export_ok s0 cp s5 :
  (acquire w d j ;; preprocess w j ;; train w j ;;
   let* config_path := find_config j in export w j config_path) s0 = (inr cp, s5) →
  ∃ config_path,
    st_trace s5 = st_trace s0 ++
      [EvDownload (video_storage_path j) (local_video_path j) true;
       EvRun (process_cmd j) (Some 0); EvRun (train_cmd j) (Some 0);
       EvRun (export_cmd j config_path) (Some 0)]
    ∧ cp_returncode cp = 0
    ∧ pipeline w d j s0 = (check_artifact j ;; publish w d j) s5.
Proof.
  intros H.
  apply bind_ok_inv in H as ([] & s1 & Ha & H).
  apply bind_ok_inv in H as (cp1 & s2 & Hp & H).
  apply bind_ok_inv in H as (cp2 & s3 & Ht & H).
  apply bind_ok_inv in H as (c & s4 & Hc & He).
  destruct (acquire_ok _ _ _ _ _ Ha) as [T1 _].
  destruct (subprocess_run_ok _ _ _ _ _ Hp) as (T2 & _ & _).
  destruct (subprocess_run_ok _ _ _ _ _ Ht) as (T3 & _ & _).
  pose proof (find_config_ok _ _ _ _ Hc) as ->.
  destruct (subprocess_run_ok _ _ _ _ _ He) as (T5 & _ & Hz).
  exists c. split_and!; [|done|].
  - rewrite T5, T3, T2, T1, <- !app_assoc. done.
  - unfold pipeline.
    rewrite (bind_ok _ _ _ _ _ Ha), (bind_ok _ _ _ _ _ Hp), (bind_ok _ _ _ _ _ Ht),
      (bind_ok _ _ _ _ _ Hc), (bind_ok _ _ _ _ _ He). done.
Qed.
End Prefixes.

(** ** Locating the training run *)

Lemma filter_none {A} (f : A → bool) (l : list A) :
  (∀ x, x ∈ l → f x = false) → List.filter f l = [].
Proof.
  induction l as [|a l IH]; intros H; [done|]. simpl.
  rewrite (H a) by constructor. apply IH. intros x Hx. apply H. by constructor.
Qed.

(** No directory to list, or no subdirectory in it: nothing is located. *)
Lemma latest_training_dir_none (fs : FS) parent :
  (fs !! parent = None
   ∨ ∃ entries, os_listdir fs parent = inr entries ∧
       ∀ n, n ∈ entries → os_path_isdir fs (os_path_join parent n) = false) →
  ∃ e, latest_training_dir fs parent = inl e.
Proof.
  unfold latest_training_dir, training_dirs.
  intros [Hnone|(entries & Hl & Hno)].
  - unfold os_listdir. rewrite Hnone. eauto.
  - rewrite Hl, filter_none by done. simpl. eauto.
Qed.

Lemma find_config_none j s :
  (∃ e, latest_training_dir (st_fs s) (splatfacto_output_dir j) = inl e) →
  ∃ s4, find_config j s
        = (inl (FileNotFoundError
                  ("Could not find config.yml in " +:+ splatfacto_output_dir j)), s4)
        ∧ (∃ line, st_trace s4 = st_trace s ++ [EvPrint line]).
Proof.
  intros [e He].
  destruct (find_config j s) as [[e'|c] s4] eqn:Hf.
  - apply find_config_raise in Hf as (-> & Hl & _). eauto.
  - exfalso. revert Hf.
    unfold find_config, try_except, bind, get_fs, lift, raise, print. rewrite He. done.
Qed.

Lemma sorted_last_greatest (l : list string) m :
  StronglySorted String.le l → last l = Some m → ∀ x, x ∈ l → String.le x m.
Proof.
  induction 1 as [|a l Hs IH Hall]; intros Hl x Hx; [inversion Hx|].
  destruct l as [|b l'].
  - simpl in Hl. injection Hl as <-. apply list_elem_of_singleton in Hx as ->. done.
  - rewrite last_cons_cons in Hl.
    apply elem_of_cons in Hx as [->|Hx]; [|by apply IH].
    apply last_Some_elem_of in Hl.
    rewrite Forall_forall in Hall. by apply Hall.
Qed.

Lemma list_sort_elem_of l x : x ∈ list_sort l ↔ x ∈ l.
Proof. unfold list_sort. by rewrite merge_sort_Permutation. Qed.

Lemma list_sort_sorted l : StronglySorted String.le (list_sort l).
Proof. apply StronglySorted_merge_sort; apply _. Qed.

Lemma elem_of_bool_filter {A} (f : A → bool) l x :
  x ∈ List.filter f l ↔ x ∈ l ∧ f x = true.
Proof. rewrite !list_elem_of_In. apply filter_In. Qed.

(** ** Every way the pipeline can end *)

Section Outcomes.
Variables (w : World) (d : Deps) (j : Job).

Lemma quiet_then {A} (c : M A) (k : A → M Response) :
  quiet c → (∀ a s, pipeline_outcome j s (k a s)) →
  ∀ s, pipeline_outcome j s (bind c k s).
Proof.
  intros Hc Hk s. destruct (Hc s) as (evs1 & T1 & W1 & R1).
  unfold bind. destruct (c s) as [[e|a] s1]; simpl in *.
  - exists evs1. split; [done|]. left. auto.
  - destruct (Hk a s1) as (evs2 & T2 & H2).
    exists (evs1 ++ evs2). rewrite T2, T1, <- app_assoc. split; [done|].
    rewrite status_writes_app, removal_failed_app, W1, R1. simpl.
    destruct (k a s1).1; done.
Qed.

Lemma quiet_acquire : quiet (acquire w d j).
Proof.
  intros s. unfold acquire, download_video, raise.
  destruct (bucket d); [|exists []; by rewrite app_nil_r].
  destruct (blob_download w s _ _) as [[f|] fs1]; eexists [_]; done.
Qed.

Lemma quiet_subprocess_run cmd : quiet (subprocess_run w cmd false true).
Proof.
  intros s. unfold subprocess_run.
  destruct (process_run w s cmd) as [f|rc err fs1]; [eexists [_]; done|].
  simpl. destruct (negb (rc =? 0)); eexists [_]; done.
Qed.

Lemma quiet_find_config : quiet (find_config j).
Proof.
  intros s. destruct (find_config j s) as [[e|c] s1] eqn:Hf.
  - apply find_config_raise in Hf as (_ & [line Hl] & _). exists [EvPrint line]. done.
  - apply find_config_ok in Hf as ->. exists []. by rewrite app_nil_r.
Qed.

Lemma quiet_check_artifact : quiet (check_artifact j).
Proof.
  intros s. exists []. rewrite app_nil_r.
  unfold check_artifact, bind, get_fs, raise, ret.
  destruct (os_path_exists _ _); done.
Qed.

Lemma quiet_upload_splat p q : quiet (upload_splat w d p q).
Proof.
  intros s. unfold upload_splat, raise.
  destruct (bucket d); [|exists []; by rewrite app_nil_r].
  destruct (blob_upload w s p q); eexists [_]; done.
Qed.

(** Lines 203 to 209: the write of [complete], the removal, the
    answer. *)
Lemma report_and_clean_outcome public_url s :
  pipeline_outcome j s
    ((update_firestore w d (doc_id j) "complete" (Some public_url) ;;
      shutil_rmtree w (job_dir j) ;;
      ret (job_done public_url)) s).
Proof.
  unfold pipeline_outcome, bind, update_firestore, doc_update, shutil_rmtree, raise, ret.
  destruct (db d); simpl.
  - destruct (doc_id j) as [| | |k| |] eqn:Hd; simpl.
    all: try (destruct (firestore_fault w s k _) eqn:Hf; simpl;
              [| destruct (st_store s !! k) eqn:Hs; simpl]).
    all: try (eexists [_]; split; [reflexivity|]; left; split; [done|right; done]).
    destruct (st_fs s !! job_dir j) as [[|]|] eqn:Hfs; simpl.
    2: match goal with |- context [rmtree_fault ?w ?s ?p] =>
         destruct (rmtree_fault w s p) as [[? ?]|] eqn:Hr; simpl end.
    all: rewrite <- ?app_assoc; simpl.
    all: eexists; split; [reflexivity|].
    all: try (right; done).
    split_and!; auto using remove_tree_gone.
  - eexists [_]; split; [reflexivity|]; left; split; [done|right; done].
Qed.

Lemma pipeline_cases s : pipeline_outcome j s (pipeline w d j s).
Proof.
  unfold pipeline.
  apply quiet_then; [apply quiet_acquire|]. intros _ s1.
  apply quiet_then; [apply quiet_subprocess_run|]. intros _ s2.
  apply quiet_then; [apply quiet_subprocess_run|]. intros _ s3.
  apply quiet_then; [apply quiet_find_config|]. intros c s4.
  apply quiet_then; [apply quiet_subprocess_run|]. intros _ s5.
  apply quiet_then; [apply quiet_check_artifact|]. intros _ s6.
  unfold publish.
  apply quiet_then; [apply quiet_upload_splat|]. intros url s7.
  apply report_and_clean_outcome.
Qed.

(** The inner [try] as a whole: unless a removal fails, the status
    writes are one of three sequences and the job directory is gone. *)
Lemma run_job_cases s :
  ∃ evs,
    st_trace (run_job w d j s).2 = st_trace s ++ evs ∧
    (removal_failed evs = false →
       (status_writes evs = [(doc_id j, "complete", true)]
        ∨ (∃ ok, status_writes evs = [(doc_id j, "failed", ok)])
        ∨ (∃ ok, status_writes evs
                 = [(doc_id j, "complete", false); (doc_id j, "failed", ok)]))
       ∧ is_ok (run_job w d j s).1 = true
       ∧ st_fs (run_job w d j s).2 !! job_dir j = None).
Proof.
  destruct (pipeline_cases s) as (evs1 & T1 & H1).
  unfold run_job, try_except.
  destruct (pipeline w d j s) as [[e|resp] s1]; simpl in *.
  - destruct (on_failure_spec w d j e s1) as (ok & evs2 & T2 & _ & W2 & _ & Hc & _).
    exists (evs1 ++ evs2). rewrite T2, T1, <- app_assoc. split; [done|].
    rewrite status_writes_app, removal_failed_app, W2.
    intros [R1 R2]%orb_false_elim.
    destruct (Hc R2) as [(resp & -> & _) Hgone].
    destruct H1 as [[_ [->| ->]]|[R1' _]]; [| |congruence]; simpl; eauto 6.
  - destruct H1 as (W1 & R1 & Hgone). exists evs1. split; [done|].
    intros _. rewrite W1. auto.
Qed.

(** Unless a removal fails, nothing is written after a status write that
    succeeded. *)
Lemma status_monotone_unless_removal_fails s :
  ∃ evs,
    st_trace (run_job w d j s).2 = st_trace s ++ evs ∧
    (removal_failed evs = false →
       ∀ before i st after,
         status_writes evs = before ++ (i, st, true) :: after → after = []).
Proof.
  destruct (run_job_cases s) as (evs & T & H). exists evs. split; [done|].
  intros R before i st after E. destruct (H R) as ([W|[[ok W]|[ok W]]] & _).
  all: rewrite W in E.
  all: destruct before as [|? [|? [|? ?]]]; simplify_eq/=; done.
Qed.
End Outcomes.

(** ** Claims *)

(** C8.  When the preprocessing command exits with a non-zero status, the
    only command the handler starts for the job is the preprocessing
    one (neither [ns-train] nor [ns-export] follows), it uploads
    nothing, and the one status it writes is [failed].  The write
    succeeds, and the document of the job holds [failed] at the end,
    whenever the document exists and the store does not fail. *)
Theorem preprocess_failure_stops_pipeline w d req s j s0 s1 rc err fs1 :
  initialized d = true →
  start_job w req s = (inr (inr j), s0) →
  acquire w d j s0 = (inr tt, s1) →
  process_run w s1 (process_cmd j) = Exited rc err fs1 →
  rc ≠ 0 →
  ∃ evs ok,
    st_trace (process_video_endpoint w d req s).2 = st_trace s ++ evs ∧
    runs evs = [process_cmd j] ∧
    uploads evs = [] ∧
    status_writes evs = [(doc_id j, "failed", ok)] ∧
    (ok = true → ∃ k, doc_id j = JStr k ∧
       recorded_status (st_store (process_video_endpoint w d req s).2) k = Some "failed") ∧
    (∀ k, doc_id j = JStr k → is_Some (st_store s !! k) →
          (∀ st data, firestore_fault w st k data = None) →
          ok = true ∧
          recorded_status (st_store (process_video_endpoint w d req s).2) k
          = Some "failed").
Proof.
  intros Hi Hs Ha Hp Hrc.
  destruct (acquire_ok _ _ _ _ _ Ha) as [Ht1 Hs1].
  destruct (start_job_trace _ _ _ _ _ Hs) as [T0 S0].
  pose proof (subprocess_run_nonzero w _ _ _ _ _ Hp Hrc) as Hrun.
  assert (Hpipe : pipeline w d j s0
                  = (inl (CalledProcessError rc (process_cmd j) None),
                     log (EvRun (process_cmd j) (Some rc)) (set_fs fs1 s1))).
  { unfold pipeline. rewrite (bind_ok _ _ _ _ _ Ha).
    by rewrite (bind_raise _ _ _ _ _ Hrun). }
  destruct (endpoint_failure w d req s j s0 _ _
              [EvDownload (video_storage_path j) (local_video_path j) true;
               EvRun (process_cmd j) (Some rc)] Hi Hs Hpipe)
    as (ok & evs & Ht & Hr & Hw & Hu & _ & Hst & _).
  { simpl. rewrite Ht1, <- app_assoc. done. }
  eexists _, ok. split; [exact Ht|].
  rewrite !runs_app, !uploads_app, !status_writes_app, Hr, Hw, Hu. simpl.
  split_and!; auto.
  intros k Hd Hk Hnf.
  eapply (failed_write_succeeded w d req s j s0 _ _ k _ evs ok Hi Hs Hpipe);
    [| |exact Ht|exact Hw|done..].
  - simpl. rewrite Ht1, T0, <- app_assoc. done.
  - simpl. by rewrite Hs1.
Qed.

Lemma preprocess_failure_stops_pipeline_witness :
  ∃ evs,
    st_trace (process_video_endpoint preprocess_fails demo_deps demo_request demo_state).2
      = st_trace demo_state ++ evs ∧
    runs evs = [process_cmd demo_job] ∧
    uploads evs = [] ∧
    status_writes evs = [(doc_id demo_job, "failed", true)] ∧
    recorded_status
      (st_store (process_video_endpoint preprocess_fails demo_deps demo_request
                   demo_state).2) "doc1" = Some "failed".
Proof.
  destruct (preprocess_failure_stops_pipeline preprocess_fails demo_deps demo_request
              demo_state demo_job
              (start_job preprocess_fails demo_request demo_state).2
              (acquire preprocess_fails demo_deps demo_job
                 (start_job preprocess_fails demo_request demo_state).2).2
              1 "CUDA out of memory"
              (st_fs (acquire preprocess_fails demo_deps demo_job
                        (start_job preprocess_fails demo_request demo_state).2).2))
    as (evs & ok & T & R & U & W & _ & Hrec).
  - reflexivity.
  - vm_compute. reflexivity.
  - vm_compute. reflexivity.
  - vm_compute. reflexivity.
  - lia.
  - destruct (Hrec "doc1") as [-> Hst].
    + reflexivity.
    + eexists. vm_compute. reflexivity.
    + intros st data. reflexivity.
    + exists evs. split_and!; [exact T|exact R|exact U|exact W|exact Hst].
Defined.

(** C6.  When training has exited with status 0 and the directory that
    should hold its runs is missing or has no subdirectory, locating the
    configuration raises [FileNotFoundError] (not the
    [CalledProcessError] of a failed command), the export command is never
    started, nothing is uploaded, the one status written is [failed], and
    the answer is a 500.  The write succeeds, and the document of the job
    holds [failed] at the end, whenever the document exists and the store
    does not fail. *)
Theorem empty_training_output_fails_before_export w d req s j s0 cp s3 :
  initialized d = true →
  start_job w req s = (inr (inr j), s0) →
  (acquire w d j ;; preprocess w j ;; train w j) s0 = (inr cp, s3) →
  (st_fs s3 !! splatfacto_output_dir j = None
   ∨ ∃ entries, os_listdir (st_fs s3) (splatfacto_output_dir j) = inr entries ∧
       ∀ n, n ∈ entries →
            os_path_isdir (st_fs s3) (os_path_join (splatfacto_output_dir j) n) = false) →
  cp_returncode cp = 0 ∧
  (∃ s4, find_config j s3
         = (inl (FileNotFoundError
                   ("Could not find config.yml in " +:+ splatfacto_output_dir j)), s4)) ∧
  ∃ evs ok,
    st_trace (process_video_endpoint w d req s).2 = st_trace s ++ evs ∧
    runs evs = [process_cmd j; train_cmd j] ∧
    uploads evs = [] ∧
    status_writes evs = [(doc_id j, "failed", ok)] ∧
    (ok = true → ∃ k, doc_id j = JStr k ∧
       recorded_status (st_store (process_video_endpoint w d req s).2) k = Some "failed") ∧
    resp_code (process_video_endpoint w d req s).1 = 500 ∧
    (∀ k, doc_id j = JStr k → is_Some (st_store s !! k) →
          (∀ st data, firestore_fault w st k data = None) →
          ok = true ∧
          recorded_status (st_store (process_video_endpoint w d req s).2) k
          = Some "failed").
Proof.
  intros Hi Hs Hfit Hempty.
  destruct (fit_ok _ _ _ _ _ _ Hfit) as (T3 & Hz & Hpipe).
  pose proof (fit_store _ _ _ _ _ _ Hfit) as S3.
  destruct (start_job_trace _ _ _ _ _ Hs) as [T0 S0].
  destruct (find_config_none j s3 (latest_training_dir_none _ _ Hempty))
    as (s4 & Hfc & line & T4).
  destruct (find_config_raise _ _ _ _ Hfc) as (_ & _ & S4 & _).
  split_and!; [done|eauto|].
  assert (Hp : pipeline w d j s0
               = (inl (FileNotFoundError
                         ("Could not find config.yml in " +:+ splatfacto_output_dir j)), s4)).
  { rewrite Hpipe. unfold rest_after_train. by rewrite (bind_raise _ _ _ _ _ Hfc). }
  destruct (endpoint_failure w d req s j s0 _ _
              [EvDownload (video_storage_path j) (local_video_path j) true;
               EvRun (process_cmd j) (Some 0); EvRun (train_cmd j) (Some 0);
               EvPrint line] Hi Hs Hp)
    as (ok & evs & Ht & Hr & Hw & Hu & H500 & Hst & _).
  { rewrite T4, T3, <- app_assoc. done. }
  eexists _, ok. split; [exact Ht|].
  rewrite !runs_app, !uploads_app, !status_writes_app, Hr, Hw, Hu. simpl.
  split_and!; auto.
  intros k Hd Hk Hnf.
  eapply (failed_write_succeeded w d req s j s0 _ _ k _ evs ok Hi Hs Hp);
    [| |exact Ht|exact Hw|done..].
  - rewrite T4, T3, T0, <- app_assoc. done.
  - by rewrite S4, S3.
Qed.

Lemma empty_training_output_fails_before_export_witness :
  ∃ evs,
    st_trace (process_video_endpoint train_leaves_nothing demo_deps demo_request
                demo_state).2 = st_trace demo_state ++ evs ∧
    runs evs = [process_cmd demo_job; train_cmd demo_job] ∧
    uploads evs = [] ∧
    status_writes evs = [(doc_id demo_job, "failed", true)] ∧
    recorded_status
      (st_store (process_video_endpoint train_leaves_nothing demo_deps demo_request
                   demo_state).2) "doc1" = Some "failed" ∧
    resp_code (process_video_endpoint train_leaves_nothing demo_deps demo_request
                 demo_state).1 = 500.
Proof.
  destruct (empty_training_output_fails_before_export train_leaves_nothing demo_deps
              demo_request demo_state demo_job
              (start_job train_leaves_nothing demo_request demo_state).2
              (mkCompleted (train_cmd demo_job) 0 None)
              ((acquire train_leaves_nothing demo_deps demo_job ;;
                preprocess train_leaves_nothing demo_job ;;
                train train_leaves_nothing demo_job)
                 (start_job train_leaves_nothing demo_request demo_state).2).2)
    as (_ & _ & evs & ok & T & R & U & W & _ & H500 & Hrec).
  - reflexivity.
  - vm_compute. reflexivity.
  - vm_compute. reflexivity.
  - right. exists []. split; [vm_compute; reflexivity|]. intros n Hn. inversion Hn.
  - destruct (Hrec "doc1") as [-> Hst].
    + reflexivity.
    + eexists. vm_compute. reflexivity.
    + intros st data. reflexivity.
    + exists evs. split_and!; [exact T|exact R|exact U|exact W|exact Hst|exact H500].
Defined.

(** C9.  When the export command has exited with status 0 and the model
    file is not at its path, the check raises [FileNotFoundError]; no
    upload is attempted, the only status written is [failed] (never
    [complete]), and the answer is a 500. *)
Theorem missing_artifact_fails_before_upload w d req s j s0 cp s5 :
  initialized d = true →
  start_job w req s = (inr (inr j), s0) →
  (acquire w d j ;; preprocess w j ;; train w j ;;
   let* config_path := find_config j in export w j config_path) s0 = (inr cp, s5) →
  os_path_exists (st_fs s5) (ply_output_path j) = false →
  cp_returncode cp = 0 ∧
  check_artifact j s5
    = (inl (FileNotFoundError
              ("Output PLY file not found after export at: " +:+ ply_output_path j)), s5) ∧
  ∃ evs ok,
    st_trace (process_video_endpoint w d req s).2 = st_trace s ++ evs ∧
    uploads evs = [] ∧
    status_writes evs = [(doc_id j, "failed", ok)] ∧
    resp_code (process_video_endpoint w d req s).1 = 500.
Proof.
  intros Hi Hs Hexp Hmissing.
  destruct (export_ok _ _ _ _ _ _ Hexp) as (c & T5 & Hz & Hpipe).
  pose proof (check_artifact_missing j s5 Hmissing) as Hck.
  split_and!; [done..|].
  assert (Hp : pipeline w d j s0
               = (inl (FileNotFoundError
                         ("Output PLY file not found after export at: "
                            +:+ ply_output_path j)), s5)).
  { rewrite Hpipe. by rewrite (bind_raise _ _ _ _ _ Hck). }
  destruct (endpoint_failure w d req s j s0 _ _ _ Hi Hs Hp T5)
    as (ok & evs & Ht & Hr & Hw & Hu & H500 & _).
  eexists _, ok. split; [exact Ht|].
  rewrite !uploads_app, !status_writes_app, Hw, Hu. simpl.
  split_and!; auto.
Qed.

Lemma missing_artifact_fails_before_upload_witness :
  ∃ evs ok,
    st_trace (process_video_endpoint export_leaves_nothing demo_deps demo_request
                demo_state).2 = st_trace demo_state ++ evs ∧
    uploads evs = [] ∧
    status_writes evs = [(doc_id demo_job, "failed", ok)] ∧
    resp_code (process_video_endpoint export_leaves_nothing demo_deps demo_request
                 demo_state).1 = 500.
Proof.
  eapply (missing_artifact_fails_before_upload export_leaves_nothing demo_deps
            demo_request demo_state demo_job
            (start_job export_leaves_nothing demo_request demo_state).2).
  - reflexivity.
  - vm_compute. reflexivity.
  - vm_compute. reflexivity.
  - vm_compute. reflexivity.
Defined.

(** C7.  In a directory that has at least one immediate subdirectory, the
    run that is selected is the subdirectory whose name is the greatest in
    the character-by-character order of strings, and it is the only
    subdirectory with that property. *)
Theorem latest_training_dir_is_greatest (fs : FS) parent entries :
  os_listdir fs parent = inr entries →
  (∃ n, n ∈ entries ∧ os_path_isdir fs (os_path_join parent n) = true) →
  ∃ m,
    latest_training_dir fs parent = inr (os_path_join parent m) ∧
    m ∈ entries ∧ os_path_isdir fs (os_path_join parent m) = true ∧
    (∀ n, n ∈ entries → os_path_isdir fs (os_path_join parent n) = true → String.le n m) ∧
    (∀ m', m' ∈ entries → os_path_isdir fs (os_path_join parent m') = true →
           (∀ n, n ∈ entries → os_path_isdir fs (os_path_join parent n) = true →
                 String.le n m') →
           m' = m).
Proof.
  intros Hl (n0 & Hn0 & Hd0).
  unfold latest_training_dir, training_dirs. rewrite Hl.
  set (isdir := λ n, os_path_isdir fs (os_path_join parent n)).
  set (dirs := list_sort (List.filter isdir entries)).
  assert (Hmem : ∀ x, x ∈ dirs ↔ x ∈ entries ∧ isdir x = true).
  { intros x. unfold dirs. by rewrite list_sort_elem_of, elem_of_bool_filter. }
  assert (Hne : dirs ≠ []).
  { intros Hnil. assert (Hin : n0 ∈ dirs) by (apply Hmem; done).
    rewrite Hnil in Hin. inversion Hin. }
  apply last_is_Some in Hne as [m Hm].
  pose proof (sorted_last_greatest dirs m (list_sort_sorted _) Hm) as Hmax.
  assert (Hmin : m ∈ dirs) by by apply last_Some_elem_of.
  apply Hmem in Hmin as [Hme Hmd].
  exists m. unfold py_last. rewrite Hm. split_and!; auto.
  - intros n Hn Hd. apply Hmax, Hmem. done.
  - intros m' Hm' Hd' Hgreatest.
    apply (anti_symm String.le).
    + apply Hmax, Hmem. done.
    + by apply Hgreatest.
Qed.

Lemma latest_training_dir_is_greatest_witness :
  ∃ m,
    latest_training_dir trained_fs (splatfacto_output_dir demo_job)
      = inr (os_path_join (splatfacto_output_dir demo_job) m) ∧
    m ∈ ["notes.txt"; "2024-01-01_000000"; "2024-02-01_000000"] ∧
    os_path_isdir trained_fs (os_path_join (splatfacto_output_dir demo_job) m) = true ∧
    (∀ n, n ∈ ["notes.txt"; "2024-01-01_000000"; "2024-02-01_000000"] →
          os_path_isdir trained_fs (os_path_join (splatfacto_output_dir demo_job) n) = true →
          String.le n m) ∧
    (∀ m', m' ∈ ["notes.txt"; "2024-01-01_000000"; "2024-02-01_000000"] →
           os_path_isdir trained_fs (os_path_join (splatfacto_output_dir demo_job) m') = true →
           (∀ n, n ∈ ["notes.txt"; "2024-01-01_000000"; "2024-02-01_000000"] →
                 os_path_isdir trained_fs
                   (os_path_join (splatfacto_output_dir demo_job) n) = true →
                 String.le n m') →
           m' = m).
Proof.
  apply (latest_training_dir_is_greatest trained_fs (splatfacto_output_dir demo_job)
           ["notes.txt"; "2024-01-01_000000"; "2024-02-01_000000"]).
  - vm_compute. reflexivity.
  - exists "2024-01-01_000000". split.
    + apply list_elem_of_further, list_elem_of_here.
    + vm_compute. reflexivity.
Defined.

Example latest_training_dir_demo :
  latest_training_dir trained_fs (splatfacto_output_dir demo_job)
  = inr "/tmp/nerfstudio_jobs/job-1/nerf_output/splatfacto/2024-02-01_000000".
Proof. vm_compute. reflexivity. Qed.

(** C10.  The health check answers 200 whatever the state of the two
    handles, which only shows in [firebase_initialized]; the processing
    endpoint answers 503 when either handle is missing, and then does
    nothing else. *)
Theorem health_is_200_processing_is_503 w d req s :
  resp_code (health_check d) = 200 ∧
  resp_body (health_check d) = HealthBody "healthy" (initialized d) ∧
  (initialized d = false →
     resp_code (process_video_endpoint w d req s).1 = 503 ∧
     st_fs (process_video_endpoint w d req s).2 = st_fs s ∧
     st_store (process_video_endpoint w d req s).2 = st_store s ∧
     runs (st_trace (process_video_endpoint w d req s).2) = runs (st_trace s)).
Proof.
  split_and!; [done..|]. intros Hi.
  unfold process_video_endpoint. rewrite Hi. simpl.
  split_and!; [done..|]. rewrite runs_app. simpl. apply app_nil_r.
Qed.

Lemma health_is_200_processing_is_503_witness :
  resp_code (health_check (mkDeps None None)) = 200 ∧
  resp_body (health_check (mkDeps None None)) = HealthBody "healthy" false ∧
  resp_code (process_video_endpoint demo_world (mkDeps None None) demo_request
               demo_state).1 = 503.
Proof.
  destruct (health_is_200_processing_is_503 demo_world (mkDeps None None) demo_request
              demo_state) as (H1 & H2 & H3).
  split_and!; [exact H1|exact H2|]. apply H3. reflexivity.
Defined.

(** C4, as the code has it.  The directory of a job is made with
    [exist_ok=True]: when the directory named by the job identifier
    already exists, the request starts its job all the same, in that
    directory; nothing is raised, the file system, old contents
    included, is as it was, and the handler goes on to run the
    pipeline there. *)
Theorem existing_workspace_is_reused w d s o p i :
  assoc "videoStoragePath" o = Some (JStr p) →
  assoc "firestoreDocId" o = Some i →
  st_fs s !! os_path_join "/tmp/nerfstudio_jobs" (uuid4 w s) = Some Dir →
  ∃ j,
    start_job w (inr (JObj o)) s = (inr (inr j), s) ∧
    job_id j = uuid4 w s ∧
    job_dir j = os_path_join "/tmp/nerfstudio_jobs" (uuid4 w s) ∧
    (initialized d = true →
     process_video_endpoint w d (inr (JObj o)) s = answer (run_job w d j s)).
Proof.
  intros Hv Hi Hdir. eexists. split_and!.
  - rewrite (start_job_object _ _ _ _ _ Hv Hi).
    unfold os_makedirs_exist_ok. rewrite Hdir. reflexivity.
  - reflexivity.
  - reflexivity.
  - intros Hin. apply endpoint_of_job; [done|].
    rewrite (start_job_object _ _ _ _ _ Hv Hi).
    unfold os_makedirs_exist_ok. rewrite Hdir. reflexivity.
Qed.

Lemma existing_workspace_is_reused_witness :
  ∃ j,
    start_job demo_world demo_request collided_state = (inr (inr j), collided_state) ∧
    job_id j = uuid4 demo_world collided_state ∧
    job_dir j = os_path_join "/tmp/nerfstudio_jobs" (uuid4 demo_world collided_state) ∧
    (initialized demo_deps = true →
     process_video_endpoint demo_world demo_deps demo_request collided_state
     = answer (run_job demo_world demo_deps j collided_state)).
Proof.
  apply (existing_workspace_is_reused demo_world demo_deps collided_state
           [("videoStoragePath", JStr "videos/u1/clip.webm");
            ("firestoreDocId", JStr "doc1"); ("userId", JStr "u1")]
           "videos/u1/clip.webm" (JStr "doc1")).
  - reflexivity.
  - reflexivity.
  - vm_compute. reflexivity.
Defined.

(** C4 as stated fails: with the directory of the job already there,
    creation raises nothing and the job starts in the old directory. *)
Lemma workspace_collision_counterexample :
  st_fs collided_state !! job_dir demo_job = Some Dir ∧
  st_fs collided_state !! (job_dir demo_job +:+ "/stale.bin") = Some File ∧
  ¬ (∃ e s', os_makedirs_exist_ok demo_world (job_dir demo_job) collided_state = (inl e, s')) ∧
  start_job demo_world demo_request collided_state = (inr (inr demo_job), collided_state).
Proof.
  split_and!; [vm_compute; reflexivity..| |vm_compute; reflexivity].
  intros (e & s' & H). vm_compute in H. discriminate.
Qed.

(** C1, as the code has it.  For a request that passed validation and
    got its job directory: unless a removal of the directory fails, the
    status writes attempted are one [complete] that succeeded, or one
    [failed], or a [complete] that failed followed by one [failed]; and
    the job directory does not exist when the handler returns. *)
Theorem terminal_write_and_cleanup w d req s j s0 :
  initialized d = true →
  start_job w req s = (inr (inr j), s0) →
  ∃ evs,
    st_trace (process_video_endpoint w d req s).2 = st_trace s ++ evs ∧
    (removal_failed evs = false →
       (status_writes evs = [(doc_id j, "complete", true)]
        ∨ (∃ ok, status_writes evs = [(doc_id j, "failed", ok)])
        ∨ (∃ ok, status_writes evs
                 = [(doc_id j, "complete", false); (doc_id j, "failed", ok)]))
       ∧ st_fs (process_video_endpoint w d req s).2 !! job_dir j = None).
Proof.
  intros Hi Hs. rewrite (endpoint_of_job _ _ _ _ _ _ Hi Hs).
  apply start_job_trace in Hs as [T0 _].
  destruct (run_job_cases w d j s0) as (evs & T & H).
  destruct (run_job w d j s0) as [[e|resp] s1]; simpl in *.
  - exists (evs ++ [EvPrint ("[PRE-JOB ERROR] " +:+ "Error handling request: " +:+ exn_str e)]).
    rewrite T, T0, <- app_assoc. split; [done|].
    rewrite removal_failed_app. simpl. rewrite orb_false_r.
    intros Hr. destruct (H Hr) as (_ & ? & _). discriminate.
  - exists evs. rewrite T, T0. split; [done|].
    intros Hr. destruct (H Hr) as (? & _ & ?). done.
Qed.

Lemma terminal_write_and_cleanup_witness :
  ∃ evs,
    st_trace (process_video_endpoint complete_write_fails demo_deps demo_request
                demo_state).2 = st_trace demo_state ++ evs ∧
    removal_failed evs = false ∧
    (status_writes evs = [(doc_id demo_job, "complete", true)]
     ∨ (∃ ok, status_writes evs = [(doc_id demo_job, "failed", ok)])
     ∨ (∃ ok, status_writes evs
              = [(doc_id demo_job, "complete", false); (doc_id demo_job, "failed", ok)]))
    ∧ st_fs (process_video_endpoint complete_write_fails demo_deps demo_request
               demo_state).2 !! job_dir demo_job = None.
Proof.
  destruct (terminal_write_and_cleanup complete_write_fails demo_deps demo_request
              demo_state demo_job (start_job complete_write_fails demo_request demo_state).2)
    as (evs & T & H).
  - reflexivity.
  - vm_compute. reflexivity.
  - exists evs. split; [exact T|].
    assert (R : removal_failed evs = false).
    { change (st_trace demo_state ++ evs) with evs in T. rewrite <- T.
      vm_compute. reflexivity. }
    split; [exact R|]. exact (H R).
Defined.

(** C1 as stated fails: when the write of [complete] raises, the handler
    goes on to write [failed], two status writes for one job; and when
    the removals fail the job directory is still there at the end. *)
Lemma two_status_writes_counterexample :
  start_job complete_write_fails demo_request demo_state
    = (inr (inr demo_job), (start_job complete_write_fails demo_request demo_state).2) ∧
  status_writes
    (st_trace (process_video_endpoint complete_write_fails demo_deps demo_request
                 demo_state).2)
    = [(JStr "doc1", "complete", false); (JStr "doc1", "failed", true)] ∧
  ¬ (∃ x, status_writes
            (st_trace (process_video_endpoint complete_write_fails demo_deps demo_request
                         demo_state).2) = [x]) ∧
  st_fs (process_video_endpoint cleanup_fails demo_deps demo_request demo_state).2
    !! job_dir demo_job = Some Dir.
Proof.
  assert (H : status_writes
                (st_trace (process_video_endpoint complete_write_fails demo_deps
                             demo_request demo_state).2)
              = [(JStr "doc1", "complete", false); (JStr "doc1", "failed", true)])
    by (vm_compute; reflexivity).
  split_and!; [vm_compute; reflexivity|exact H| |vm_compute; reflexivity].
  intros [x Hx]. rewrite H in Hx. discriminate.
Qed.

(** C2 fails on the code.  Everything succeeds and [complete] is
    recorded with the URL; the removal of the job directory then raises
    inside the [try], the general clause runs and [failed] is written
    over [complete]. *)
Example failed_overwrites_complete :
  status_writes
    (st_trace (process_video_endpoint cleanup_fails_once demo_deps demo_request
                 demo_state).2)
    = [(JStr "doc1", "complete", true); (JStr "doc1", "failed", true)] ∧
  recorded_status
    (st_store (process_video_endpoint cleanup_fails_once demo_deps demo_request
                 demo_state).2) "doc1" = Some "failed" ∧
  (st_store (process_video_endpoint cleanup_fails_once demo_deps demo_request
               demo_state).2 !! "doc1") ≫= (λ doc, doc !! "splatModelUrl")
    = Some "https://storage.googleapis.com/demo/splat-models/u1/doc1.ply".
Proof. split_and!; vm_compute; reflexivity. Qed.

(** C3 fails on the code.  Preprocessing writes to its standard error
    and exits with status 1; the commands are run without a pipe, so the
    error raised carries no standard error and the line printed for it
    reads [None]. *)
Example stage_error_has_no_stderr :
  process_run preprocess_fails
    (acquire preprocess_fails demo_deps demo_job
       (start_job preprocess_fails demo_request demo_state).2).2
    (process_cmd demo_job)
    = Exited 1 "CUDA out of memory"
        (st_fs (acquire preprocess_fails demo_deps demo_job
                  (start_job preprocess_fails demo_request demo_state).2).2) ∧
  (preprocess preprocess_fails demo_job
     (acquire preprocess_fails demo_deps demo_job
        (start_job preprocess_fails demo_request demo_state).2).2).1
    = inl (CalledProcessError 1 (process_cmd demo_job) None) ∧
  prints (st_trace (process_video_endpoint preprocess_fails demo_deps demo_request
                      demo_state).2)
    = ["[job-1] Nerfstudio command failed (Code 1). Check RunPod logs.";
       "[job-1] Stderr: None";
       "[job-1] Cleaning up failed job directory: /tmp/nerfstudio_jobs/job-1"].
Proof. split_and!; vm_compute; reflexivity. Qed.

(** C5 fails on the code.  On the success path a removal that raises
    turns the answer into a 500 of the general clause; on the failure
    path it escapes to the outer clause, whose answer replaces the one
    of the failed command. *)
Example cleanup_failure_replaces_outcome :
  (process_video_endpoint demo_world demo_deps demo_request demo_state).1
    = job_done "https://storage.googleapis.com/demo/splat-models/u1/doc1.ply" ∧
  (process_video_endpoint cleanup_fails_once demo_deps demo_request demo_state).1
    = mkResponse
        (ErrorBody "An internal server error occurred during processing"
           (Some "An error occurred during processing: [Errno 13] Permission denied: '/tmp/nerfstudio_jobs/job-1'"))
        500 ∧
  (process_video_endpoint preprocess_fails demo_deps demo_request demo_state).1
    = mkResponse
        (ErrorBody "Nerfstudio processing failed"
           (Some "Nerfstudio command failed (Code 1). Check RunPod logs."))
        500 ∧
  (process_video_endpoint preprocess_and_cleanup_fail demo_deps demo_request demo_state).1
    = mkResponse
        (ErrorBody "Failed to handle request"
           (Some "Error handling request: [Errno 13] Permission denied: '/tmp/nerfstudio_jobs/job-1'"))
        500.
Proof. split_and!; vm_compute; reflexivity. Qed.

(** * Further properties of the handlers *)

(** ** Requests that start no job *)

Lemma assoc_contains k o :
  py_contains k (JObj o) = inr (bool_decide (is_Some (assoc k o))).
Proof. simpl. destruct (assoc k o); done. Qed.

Lemma os_makedirs_ok w p s s1 :
  os_makedirs_exist_ok w p s = (inr tt, s1) → st_fs s1 !! p = Some Dir.
Proof.
  unfold os_makedirs_exist_ok.
  destruct (st_fs s !! p) as [[|]|] eqn:Hp; [discriminate|by intros [= <-]|].
  destruct (mkdir_fault w s p); [discriminate|].
  destruct (existsb _ _); [discriminate|]. intros [= <-]. simpl.
  unfold make_dirs. apply lookup_insert_eq.
Qed.

Lemma os_makedirs_raise w p s e s1 :
  os_makedirs_exist_ok w p s = (inl e, s1) → s1 = s.
Proof.
  unfold os_makedirs_exist_ok.
  destruct (st_fs s !! p) as [[|]|]; [by intros [= _ <-]|discriminate|].
  destruct (mkdir_fault w s p); [by intros [= _ <-]|].
  destruct (existsb _ _); [by intros [= _ <-]|discriminate].
Qed.

(** A body that is empty, null, zero or false, or an object without
    [videoStoragePath] or without [firestoreDocId], is answered with the
    fixed 400 and nothing else happens: no directory, no status write,
    no line printed. *)
Theorem missing_field_is_rejected w d s data :
  initialized d = true →
  (truthy data = false
   ∨ ∃ o, data = JObj o ∧
       (assoc "videoStoragePath" o = None ∨ assoc "firestoreDocId" o = None)) →
  process_video_endpoint w d (inr data) s = (bad_request, s).
Proof.
  intros Hi H. unfold process_video_endpoint, start_job. rewrite Hi. simpl.
  unfold bind, lift, ret.
  destruct (truthy data) eqn:Ht; simpl; [|done].
  destruct H as [?|(o & -> & H)]; [discriminate|].
  rewrite !assoc_contains.
  destruct (assoc "videoStoragePath" o) eqn:Hv; simpl; [|done].
  destruct H as [?|Hd]; [discriminate|].
  rewrite Hd. done.
Qed.

Lemma missing_field_is_rejected_witness :
  process_video_endpoint demo_world demo_deps
    (inr (JObj [("videoStoragePath", JStr "videos/u1/clip.webm")])) demo_state
  = (bad_request, demo_state).
Proof.
  apply (missing_field_is_rejected demo_world demo_deps demo_state).
  - reflexivity.
  - right. eexists. split; [reflexivity|]. right. reflexivity.
Defined.

(** When [request.get_json()] raises, the outer clause answers 500 (not
    400) with the text of the exception, and only prints. *)
Theorem undecodable_body_is_500 w d s f :
  initialized d = true →
  process_video_endpoint w d (inl f) s
  = (mkResponse (ErrorBody "Failed to handle request"
                   (Some ("Error handling request: " +:+ msg f))) 500,
     log (EvPrint ("[PRE-JOB ERROR] " +:+ "Error handling request: " +:+ msg f)) s).
Proof. intros Hi. unfold process_video_endpoint. rewrite Hi. done. Qed.

Lemma undecodable_body_is_500_witness :
  resp_code
    (process_video_endpoint demo_world demo_deps
       (inl (Fault "BadRequest" "400 Bad Request: Failed to decode JSON object"))
       demo_state).1 = 500.
Proof.
  rewrite (undecodable_body_is_500 demo_world demo_deps demo_state
             (Fault "BadRequest" "400 Bad Request: Failed to decode JSON object"));
    reflexivity.
Defined.

Lemma calls_app t1 t2 : calls (t1 ++ t2) = calls t1 ++ calls t2.
Proof. apply List.filter_app. Qed.

Lemma calls_print t l : calls (t ++ [EvPrint l]) = calls t.
Proof. rewrite calls_app. simpl. apply app_nil_r. Qed.

#[local] Arguments calls : simpl never.

(** A body that decodes to something else than an object (a list, a
    string, a number, a boolean) never starts a job: the answer is 400
    or 500, and neither the file system nor the store changes and no
    collaborator is called. *)
Theorem non_object_body_starts_nothing w d s data :
  initialized d = true →
  (∀ o, data ≠ JObj o) →
  (resp_code (process_video_endpoint w d (inr data) s).1 = 400
   ∨ resp_code (process_video_endpoint w d (inr data) s).1 = 500) ∧
  st_fs (process_video_endpoint w d (inr data) s).2 = st_fs s ∧
  st_store (process_video_endpoint w d (inr data) s).2 = st_store s ∧
  calls (st_trace (process_video_endpoint w d (inr data) s).2) = calls (st_trace s).
Proof.
  intros Hi Hno. unfold process_video_endpoint, start_job. rewrite Hi. simpl.
  unfold bind, lift, ret.
  destruct data as [|b|n|x|l|o]; try (by destruct (Hno o)); simpl.
  all: repeat (match goal with
               | |- context [if negb ?c then _ else _] => destruct c; simpl
               end).
  all: rewrite ?calls_print; auto.
Qed.

Lemma non_object_body_starts_nothing_witness :
  resp_code
    (process_video_endpoint demo_world demo_deps
       (inr (JArr [JStr "videoStoragePath"; JStr "firestoreDocId"])) demo_state).1 = 500
  ∧ st_fs (process_video_endpoint demo_world demo_deps
             (inr (JArr [JStr "videoStoragePath"; JStr "firestoreDocId"])) demo_state).2
    = st_fs demo_state.
Proof.
  destruct (non_object_body_starts_nothing demo_world demo_deps demo_state
              (JArr [JStr "videoStoragePath"; JStr "firestoreDocId"]))
    as (_ & Hfs & _).
  - reflexivity.
  - intros o. discriminate.
  - split; [vm_compute; reflexivity|exact Hfs].
Defined.

(** ** Requests that start a job, or fail while starting it *)

(** A job is started only for an object whose [videoStoragePath] is a
    string and that has a [firestoreDocId]; the job then has a fresh
    identifier, its directory under [/tmp/nerfstudio_jobs] exists, the
    video goes to the base name of its storage path inside that
    directory, and a missing [userId] reads [unknown_user].  Nothing is
    written to the store and no collaborator is called. *)
Theorem started_job_shape w req s j s0 :
  start_job w req s = (inr (inr j), s0) →
  ∃ o p,
    req = inr (JObj o) ∧
    assoc "videoStoragePath" o = Some (JStr p) ∧
    assoc "firestoreDocId" o = Some (doc_id j) ∧
    user_id j = default (JStr "unknown_user") (assoc "userId" o) ∧
    video_storage_path j = p ∧
    job_id j = uuid4 w s ∧
    job_dir j = os_path_join "/tmp/nerfstudio_jobs" (job_id j) ∧
    local_video_path j = os_path_join (job_dir j) (os_path_basename p) ∧
    data_dir j = os_path_join (job_dir j) "nerf_data" ∧
    output_dir j = os_path_join (job_dir j) "nerf_output" ∧
    st_fs s0 !! job_dir j = Some Dir ∧
    st_store s0 = st_store s ∧ st_trace s0 = st_trace s.
Proof.
  intros H. destruct (start_job_trace _ _ _ _ _ H) as [Ht Hs].
  destruct req as [f|data]; [discriminate|].
  assert (Hobj : ∃ o v i, data = JObj o ∧ assoc "videoStoragePath" o = Some v
                          ∧ assoc "firestoreDocId" o = Some i).
  { revert H. unfold start_job, bind, lift, ret, raise.
    destruct data as [|b|n|x|l|o]; simpl.
    all: repeat (match goal with
                 | |- context [if negb ?c then _ else _] => destruct c eqn:?; simpl
                 end); try discriminate.
    destruct (assoc "videoStoragePath" o) as [v|] eqn:Hv; [|discriminate].
    destruct (assoc "firestoreDocId" o) as [i|] eqn:Hi; [|discriminate]. eauto 7. }
  destruct Hobj as (o & v & i & -> & Hv & Hi).
  rewrite (start_job_object _ _ _ _ _ Hv Hi) in H.
  destruct (os_makedirs_exist_ok w _ s) as [[e|[]] s1] eqn:Hm; [discriminate|].
  apply os_makedirs_ok in Hm.
  destruct v as [| | |p| |]; try discriminate.
  injection H as <- <-. exists o, p. simpl. split_and!; done.
Qed.

Lemma started_job_shape_witness :
  ∃ o p,
    demo_request = inr (JObj o) ∧
    assoc "videoStoragePath" o = Some (JStr p) ∧
    assoc "firestoreDocId" o = Some (doc_id demo_job) ∧
    user_id demo_job = default (JStr "unknown_user") (assoc "userId" o) ∧
    video_storage_path demo_job = p ∧
    job_id demo_job = uuid4 demo_world demo_state ∧
    job_dir demo_job = os_path_join "/tmp/nerfstudio_jobs" (job_id demo_job) ∧
    local_video_path demo_job = os_path_join (job_dir demo_job) (os_path_basename p) ∧
    data_dir demo_job = os_path_join (job_dir demo_job) "nerf_data" ∧
    output_dir demo_job = os_path_join (job_dir demo_job) "nerf_output" ∧
    st_fs (start_job demo_world demo_request demo_state).2 !! job_dir demo_job = Some Dir ∧
    st_store (start_job demo_world demo_request demo_state).2 = st_store demo_state ∧
    st_trace (start_job demo_world demo_request demo_state).2 = st_trace demo_state.
Proof.
  apply (started_job_shape demo_world demo_request demo_state demo_job
           (start_job demo_world demo_request demo_state).2).
  vm_compute. reflexivity.
Defined.

(** An object whose [videoStoragePath] is not a string passes the check
    of the fields; the job directory is made, then naming the local file
    raises, outside the inner [try]: the outer clause answers 500, no
    status is written, and the directory stays behind. *)
Theorem non_string_path_leaves_directory w d s o v i s1 :
  initialized d = true →
  assoc "videoStoragePath" o = Some v →
  (∀ p, v ≠ JStr p) →
  assoc "firestoreDocId" o = Some i →
  os_makedirs_exist_ok w (os_path_join "/tmp/nerfstudio_jobs" (uuid4 w s)) s = (inr tt, s1) →
  resp_code (process_video_endpoint w d (inr (JObj o)) s).1 = 500 ∧
  st_fs (process_video_endpoint w d (inr (JObj o)) s).2
    !! os_path_join "/tmp/nerfstudio_jobs" (uuid4 w s) = Some Dir ∧
  st_store (process_video_endpoint w d (inr (JObj o)) s).2 = st_store s ∧
  calls (st_trace (process_video_endpoint w d (inr (JObj o)) s).2) = calls (st_trace s).
Proof.
  intros Hin Hv Hns Hi Hm.
  assert (E : ∃ e, process_video_endpoint w d (inr (JObj o)) s = on_request_error e s1).
  { unfold process_video_endpoint. rewrite Hin. simpl.
    unfold bind. rewrite (start_job_object _ _ _ _ _ Hv Hi), Hm.
    destruct v as [| | |p| |]; try (by destruct (Hns p)); simpl; eauto. }
  destruct E as [e ->]. simpl.
  destruct (os_makedirs_trace _ _ _ _ _ Hm) as [Ht Hs].
  apply os_makedirs_ok in Hm.
  rewrite calls_print, Ht, Hs. done.
Qed.

Lemma non_string_path_leaves_directory_witness :
  resp_code (process_video_endpoint demo_world demo_deps
               (inr (JObj [("videoStoragePath", JNum 7); ("firestoreDocId", JStr "doc1")]))
               demo_state).1 = 500 ∧
  st_fs (process_video_endpoint demo_world demo_deps
           (inr (JObj [("videoStoragePath", JNum 7); ("firestoreDocId", JStr "doc1")]))
           demo_state).2
    !! os_path_join "/tmp/nerfstudio_jobs" (uuid4 demo_world demo_state) = Some Dir ∧
  st_store (process_video_endpoint demo_world demo_deps
              (inr (JObj [("videoStoragePath", JNum 7); ("firestoreDocId", JStr "doc1")]))
              demo_state).2 = st_store demo_state ∧
  calls (st_trace (process_video_endpoint demo_world demo_deps
                     (inr (JObj [("videoStoragePath", JNum 7);
                                 ("firestoreDocId", JStr "doc1")]))
                     demo_state).2) = calls (st_trace demo_state).
Proof.
  eapply (non_string_path_leaves_directory demo_world demo_deps demo_state
            [("videoStoragePath", JNum 7); ("firestoreDocId", JStr "doc1")]
            (JNum 7) (JStr "doc1")).
  - reflexivity.
  - reflexivity.
  - intros p. discriminate.
  - reflexivity.
  - vm_compute. reflexivity.
Defined.

(** When the job directory cannot be made, the outer clause answers 500
    with the text of the error; no status is written and nothing else is
    touched. *)
Theorem workspace_creation_failure w d s o v i e s1 :
  initialized d = true →
  assoc "videoStoragePath" o = Some v →
  assoc "firestoreDocId" o = Some i →
  os_makedirs_exist_ok w (os_path_join "/tmp/nerfstudio_jobs" (uuid4 w s)) s = (inl e, s1) →
  process_video_endpoint w d (inr (JObj o)) s
  = (mkResponse (ErrorBody "Failed to handle request"
                   (Some ("Error handling request: " +:+ exn_str e))) 500,
     log (EvPrint ("[PRE-JOB ERROR] " +:+ "Error handling request: " +:+ exn_str e)) s).
Proof.
  intros Hin Hv Hi Hm. unfold process_video_endpoint. rewrite Hin. simpl.
  unfold bind. rewrite (start_job_object _ _ _ _ _ Hv Hi), Hm.
  apply os_makedirs_raise in Hm as ->. done.
Qed.

Lemma workspace_creation_failure_witness :
  resp_code (process_video_endpoint read_only_root demo_deps demo_request demo_state).1 = 500
  ∧ st_trace (process_video_endpoint read_only_root demo_deps demo_request demo_state).2
    = [EvPrint "[PRE-JOB ERROR] Error handling request: [Errno 30] Read-only file system: '/tmp/nerfstudio_jobs'"].
Proof.
  unfold demo_request.
  rewrite (workspace_creation_failure read_only_root demo_deps demo_state
             [("videoStoragePath", JStr "videos/u1/clip.webm");
              ("firestoreDocId", JStr "doc1"); ("userId", JStr "u1")]
             (JStr "videos/u1/clip.webm") (JStr "doc1")
             (PyError (Fault "OSError"
                         "[Errno 30] Read-only file system: '/tmp/nerfstudio_jobs'"))
             demo_state); [|reflexivity..].
  split; reflexivity.
Defined.

(** ** Relations kept along a job *)

Section Keeps.
Context (R : State → State → Prop) `{!PreOrder R}.

Lemma keeps_ret {A} (a : A) : keeps R (ret a).
Proof. intros s. simpl. reflexivity. Qed.

Lemma keeps_raise {A} e : keeps R (@raise A e).
Proof. intros s. simpl. reflexivity. Qed.

Lemma keeps_lift {A} (r : exn + A) : keeps R (lift r).
Proof. intros s. simpl. reflexivity. Qed.

Lemma keeps_get_fs : keeps R get_fs.
Proof. intros s. simpl. reflexivity. Qed.

Lemma keeps_bind {A B} (c : M A) (k : A → M B) :
  keeps R c → (∀ a, keeps R (k a)) → keeps R (bind c k).
Proof.
  intros Hc Hk s. unfold bind. specialize (Hc s).
  destruct (c s) as [[e|a] s1]; simpl in *; [done|].
  etrans; [exact Hc|apply Hk].
Qed.

Lemma keeps_try_except {A} (c : M A) (h : exn → M A) :
  keeps R c → (∀ e, keeps R (h e)) → keeps R (try_except c h).
Proof.
  intros Hc Hh s. unfold try_except. specialize (Hc s).
  destruct (c s) as [[e|a] s1]; simpl in *; [|done].
  etrans; [exact Hc|apply Hh].
Qed.

Lemma keeps_if {A} (b : bool) (c1 c2 : M A) :
  keeps R c1 → keeps R c2 → keeps R (if b then c1 else c2).
Proof. by destruct b. Qed.
End Keeps.

(** What the collaborators keep, the whole job keeps. *)
Section JobKeeps.
Context (w : World) (d : Deps) (j : Job).
Context (R : State → State → Prop) `{!PreOrder R}.
Hypothesis keeps_print : ∀ l, keeps R (print l).
Hypothesis keeps_download :
  keeps R (download_video w d (video_storage_path j) (local_video_path j)).
Hypothesis keeps_process : keeps R (subprocess_run w (process_cmd j) false true).
Hypothesis keeps_train : keeps R (subprocess_run w (train_cmd j) false true).
Hypothesis keeps_export : ∀ c, keeps R (subprocess_run w (export_cmd j c) false true).
Hypothesis keeps_upload :
  keeps R (upload_splat w d (ply_output_path j) (splat_storage_path w j)).
Hypothesis keeps_complete :
  ∀ url, keeps R (update_firestore w d (doc_id j) "complete" (Some url)).
Hypothesis keeps_failed : keeps R (update_firestore w d (doc_id j) "failed" None).
Hypothesis keeps_rmtree : keeps R (shutil_rmtree w (job_dir j)).

Ltac keeps_step :=
  first
    [ progress cbv zeta
    | apply keeps_bind; [apply _| |intros ?]
    | apply keeps_try_except; [apply _| |intros ?]
    | match goal with |- keeps _ (if ?b then _ else _) => destruct b end
    | apply keeps_ret; apply _
    | apply keeps_raise; apply _
    | apply keeps_lift; apply _
    | apply keeps_get_fs; apply _
    | assumption
    | match goal with H : ∀ _, keeps _ _ |- _ => apply H end ].

Lemma find_config_keeps : keeps R (find_config j).
Proof. unfold find_config. repeat keeps_step. Qed.

Lemma pipeline_keeps : keeps R (pipeline w d j).
Proof.
  unfold pipeline, acquire, preprocess, train, export, check_artifact, publish.
  repeat first [apply find_config_keeps | keeps_step].
Qed.

Lemma mark_failed_and_clean_keeps : keeps R (mark_failed_and_clean w d j).
Proof. unfold mark_failed_and_clean. repeat keeps_step. Qed.

Lemma run_job_keeps : keeps R (run_job w d j).
Proof.
  unfold run_job. apply keeps_try_except; [apply _|apply pipeline_keeps|].
  intros [rc cmd err|f]; simpl; unfold on_called_process_error, on_exception.
  all: repeat first [apply mark_failed_and_clean_keeps | keeps_step].
Qed.
End JobKeeps.

(** ** What a request can touch *)

#[local] Instance grows_by_preorder P : PreOrder (grows_by P).
Proof.
  split.
  - intros s. exists []. by rewrite app_nil_r.
  - intros s1 s2 s3 (e1 & T1 & F1) (e2 & T2 & F2). exists (e1 ++ e2).
    rewrite T2, T1, <- app_assoc. split; [done|]. by apply Forall_app.
Qed.

Lemma grows_by_log P e s : P e → grows_by P s (log e s).
Proof. intros H. exists [e]. split; [done|]. by constructor. Qed.

Lemma grows_by_log_on P e s fs : P e → grows_by P s (log e (set_fs fs s)).
Proof. intros H. exists [e]. split; [done|]. by constructor. Qed.

Lemma doc_update_trace w i data s : st_trace (doc_update w i data s).2 = st_trace s.
Proof.
  unfold doc_update. destruct i as [| | |k| |]; try done.
  destruct (firestore_fault w s k data); [done|]. by destruct (st_store s !! k).
Qed.

Lemma update_firestore_trace w d i status url s :
  ∃ ok, st_trace (update_firestore w d i status url s).2
        = st_trace s ++ [EvStatus i status url ok].
Proof.
  unfold update_firestore. simpl. eexists. f_equal.
  destruct (db d); [apply doc_update_trace|done].
Qed.

Section JobEvents.
Context (w : World) (d : Deps) (j : Job).

Lemma run_job_events : keeps (grows_by (job_event w j)) (run_job w d j).
Proof.
  apply run_job_keeps; [apply _|..].
  - intros l s. by apply grows_by_log.
  - intros s. unfold download_video, raise. destruct (bucket d); [|reflexivity].
    destruct (blob_download w s _ _) as [[f|] fs1]; by apply grows_by_log_on.
  - intros s. unfold subprocess_run.
    destruct (process_run w s _) as [f|rc err fs1]; simpl;
      [|destruct (negb (rc =? 0))]; simpl; apply grows_by_log || apply grows_by_log_on;
      simpl; auto.
  - intros s. unfold subprocess_run.
    destruct (process_run w s _) as [f|rc err fs1]; simpl;
      [|destruct (negb (rc =? 0))]; simpl; apply grows_by_log || apply grows_by_log_on;
      simpl; auto.
  - intros c s. unfold subprocess_run.
    destruct (process_run w s _) as [f|rc err fs1]; simpl;
      [|destruct (negb (rc =? 0))]; simpl; apply grows_by_log || apply grows_by_log_on;
      simpl; eauto.
  - intros s. unfold upload_splat, raise. destruct (bucket d); [|reflexivity].
    destruct (blob_upload w s _ _); by apply grows_by_log.
  - intros url s. destruct (update_firestore_trace w d (doc_id j) "complete" (Some url) s)
      as [ok T].
    eexists [_]. split; [exact T|]. constructor; [|done]. simpl. eauto.
  - intros s. destruct (update_firestore_trace w d (doc_id j) "failed" None s) as [ok T].
    eexists [_]. split; [exact T|]. constructor; [|done]. simpl. eauto.
  - intros s. unfold shutil_rmtree.
    destruct (st_fs s !! job_dir j) as [[|]|]; simpl; [by apply grows_by_log| |by apply grows_by_log].
    destruct (rmtree_fault w s _) as [[f fs1]|]; simpl; by apply grows_by_log_on.
Qed.
End JobEvents.

(** Whatever the request and whatever fails, the collaborators are
    called only for a started job and only on what belongs to it: the
    download of its video to its local path, its three commands, the
    upload of its model file to its storage path, status writes to its
    document ([complete] with a URL or [failed] without), removals of
    its directory. *)
Theorem calls_stay_within_job w d req s :
  ∃ evs,
    st_trace (process_video_endpoint w d req s).2 = st_trace s ++ evs ∧
    (calls evs = []
     ∨ ∃ j s0, start_job w req s = (inr (inr j), s0) ∧ Forall (job_event w j) evs).
Proof.
  unfold process_video_endpoint. destruct (initialized d); simpl.
  2: { eexists [_]. split; [reflexivity|]. by left. }
  unfold bind. destruct (start_job w req s) as [[e|[early|j]] s0] eqn:Hs.
  all: destruct (start_job_trace _ _ _ _ _ Hs) as [T0 _]; simpl.
  - eexists [_]. rewrite T0. split; [reflexivity|]. by left.
  - exists []. rewrite T0, app_nil_r. split; [done|]. by left.
  - destruct (run_job_events w d j s0) as (evs & T & F).
    destruct (run_job w d j s0) as [[e|resp] s1]; simpl in *.
    + eexists (evs ++ [_]). rewrite T, T0, <- app_assoc. split; [reflexivity|].
      right. exists j, s0. split; [done|]. apply Forall_app. split; [done|].
      by constructor.
    + exists evs. rewrite T, T0. split; [done|]. right. eauto.
Qed.

#[local] Instance status_fields_only_preorder i : PreOrder (store_frame i).
Proof.
  split.
  - intros s k. done.
  - intros s1 s2 s3 H1 H2 k. destruct (H1 k) as (A1 & B1 & C1).
    destruct (H2 k) as (A2 & B2 & C2). split_and!.
    + intros Hk. by rewrite A2, A1.
    + by rewrite B2, B1.
    + intros f Hf1 Hf2. by rewrite C2, C1.
Qed.

Lemma store_frame_same i s s' : st_store s' = st_store s → store_frame i s s'.
Proof. intros H k. unfold store_frame. rewrite H. done. Qed.

Lemma update_firestore_frame w d i status url :
  keeps (store_frame i) (update_firestore w d i status url).
Proof.
  intros s. unfold update_firestore, doc_update, raise. simpl.
  destruct (db d); [|by apply store_frame_same].
  destruct i as [| | |k| |]; simpl; try (by apply store_frame_same).
  destruct (firestore_fault w s k _); simpl; [by apply store_frame_same|].
  destruct (st_store s !! k) as [old|] eqn:Hold; simpl; [|by apply store_frame_same].
  intros k'. unfold store_frame. simpl. destruct (decide (k = k')) as [<-|Hne].
  - rewrite lookup_insert_eq, Hold. split_and!; [done|split; eauto|].
    intros f Hf1 Hf2. simpl. apply lookup_union_r.
    destruct (truthy_url url).
    + rewrite lookup_insert_ne by done. by apply lookup_singleton_ne.
    + by apply lookup_singleton_ne.
  - rewrite lookup_insert_ne by done. done.
Qed.

Lemma run_job_frame w d j : keeps (store_frame (doc_id j)) (run_job w d j).
Proof.
  apply run_job_keeps; [apply _|..]; try (intros; apply update_firestore_frame).
  - intros l s. by apply store_frame_same.
  - intros s. unfold download_video, raise. destruct (bucket d); [|reflexivity].
    destruct (blob_download w s _ _) as [[f|] fs1]; by apply store_frame_same.
  - intros s. apply store_frame_same. unfold subprocess_run.
    destruct (process_run w s _) as [f|rc err fs1]; simpl; [done|].
    by destruct (negb (rc =? 0)).
  - intros s. apply store_frame_same. unfold subprocess_run.
    destruct (process_run w s _) as [f|rc err fs1]; simpl; [done|].
    by destruct (negb (rc =? 0)).
  - intros c s. apply store_frame_same. unfold subprocess_run.
    destruct (process_run w s _) as [f|rc err fs1]; simpl; [done|].
    by destruct (negb (rc =? 0)).
  - intros s. unfold upload_splat, raise. destruct (bucket d); [|reflexivity].
    destruct (blob_upload w s _ _); by apply store_frame_same.
  - intros s. apply store_frame_same. unfold shutil_rmtree.
    destruct (st_fs s !! job_dir j) as [[|]|]; simpl; [done| |done].
    by destruct (rmtree_fault w s _) as [[f fs1]|].
Qed.

(** Whatever the request and whatever fails, the store is left as it
    was, or a job was started and the only possible change is in the
    fields [processingStatus] and [splatModelUrl] of the document the
    request names: no document is created or deleted, every other
    document and every other field is untouched. *)
Theorem store_changes_only_in_job_status w d req s :
  st_store (process_video_endpoint w d req s).2 = st_store s
  ∨ ∃ j s0,
      start_job w req s = (inr (inr j), s0) ∧
      status_fields_only (doc_id j) (st_store s)
        (st_store (process_video_endpoint w d req s).2).
Proof.
  unfold process_video_endpoint. destruct (initialized d); simpl; [|by left].
  unfold bind. destruct (start_job w req s) as [[e|[early|j]] s0] eqn:Hs.
  all: destruct (start_job_trace _ _ _ _ _ Hs) as [_ S0]; simpl.
  1, 2: by left.
  right. exists j, s0. split; [done|].
  pose proof (run_job_frame w d j s0) as H. unfold store_frame in H.
  rewrite S0 in H.
  destruct (run_job w d j s0) as [[e|resp] s1]; simpl in *; done.
Qed.

(** ** The order of the calls *)

Section Order.
Context (w : World) (d : Deps) (j : Job).

Lemma acquire_cases s :
  match acquire w d j s with
  | (inr _, s1) =>
      st_trace s1
      = st_trace s ++ [EvDownload (video_storage_path j) (local_video_path j) true]
  | (inl _, s1) =>
      st_trace s1 = st_trace s
      ∨ st_trace s1
        = st_trace s ++ [EvDownload (video_storage_path j) (local_video_path j) false]
  end.
Proof.
  unfold acquire, download_video, raise. destruct (bucket d); [|by left].
  destruct (blob_download w s _ _) as [[f|] fs1]; simpl; auto.
Qed.

Lemma subprocess_run_cases cmd s :
  match subprocess_run w cmd false true s with
  | (inr _, s1) => st_trace s1 = st_trace s ++ [EvRun cmd (Some 0)]
  | (inl _, s1) => ∃ r, r ≠ Some 0 ∧ st_trace s1 = st_trace s ++ [EvRun cmd r]
  end.
Proof.
  unfold subprocess_run. destruct (process_run w s cmd) as [f|rc err fs1]; simpl.
  - exists None. done.
  - destruct (rc =? 0) eqn:E; simpl.
    + apply Z.eqb_eq in E as ->. done.
    + exists (Some rc). split; [|done]. intros [= ->]. done.
Qed.

Lemma upload_cases s :
  match upload_splat w d (ply_output_path j) (splat_storage_path w j) s with
  | (inr _, s1) =>
      st_trace s1 = st_trace s ++ [EvUpload (ply_output_path j) (splat_storage_path w j) true]
  | (inl _, s1) =>
      st_trace s1 = st_trace s
      ∨ st_trace s1
        = st_trace s ++ [EvUpload (ply_output_path j) (splat_storage_path w j) false]
  end.
Proof.
  unfold upload_splat, raise. destruct (bucket d); [|by left].
  destruct (blob_upload w s _ _); simpl; auto.
Qed.

Lemma update_firestore_cases i status url s :
  match update_firestore w d i status url s with
  | (inr _, s1) => st_trace s1 = st_trace s ++ [EvStatus i status url true]
  | (inl _, s1) => st_trace s1 = st_trace s ++ [EvStatus i status url false]
  end.
Proof.
  unfold update_firestore. simpl.
  pose proof (doc_update_trace w i
                (if truthy_url url
                 then <["splatModelUrl" := default "" url]> {["processingStatus" := status]}
                 else {["processingStatus" := status]}) s) as T.
  destruct (db d); simpl.
  - destruct (doc_update w i _ s) as [[e|[]] s1]; simpl in *; by rewrite T.
  - done.
Qed.

Lemma shutil_rmtree_cases p s :
  match shutil_rmtree w p s with
  | (inr _, s1) => st_trace s1 = st_trace s ++ [EvRmtree p true] ∧ st_fs s1 !! p = None
  | (inl _, s1) => st_trace s1 = st_trace s ++ [EvRmtree p false]
  end.
Proof.
  unfold shutil_rmtree. destruct (st_fs s !! p) as [[|]|]; simpl; [done| |done].
  destruct (rmtree_fault w s p) as [[f fs1]|]; simpl; [done|].
  split; [done|apply remove_tree_gone].
Qed.

Lemma upload_ok p q s url s1 :
  upload_splat w d p q s = (inr url, s1) → blob_upload w s p q = inr url.
Proof.
  unfold upload_splat, raise. destruct (bucket d); [|discriminate].
  destruct (blob_upload w s p q); [discriminate|]. by intros [= <- _].
Qed.

Lemma update_firestore_ok i status url s s1 :
  update_firestore w d i status url s = (inr tt, s1) →
  ∃ k old,
    i = JStr k ∧ st_store s !! k = Some old ∧
    st_store s1
    = <[k := (if truthy_url url
              then <["splatModelUrl" := default "" url]> {["processingStatus" := status]}
              else {["processingStatus" := status]}) ∪ old]> (st_store s).
Proof.
  unfold update_firestore, doc_update, raise. destruct (db d); simpl; [|discriminate].
  destruct i as [| | |k| |]; simpl; try discriminate.
  destruct (firestore_fault w s k _); simpl; [discriminate|].
  destruct (st_store s !! k) as [old|] eqn:Hold; simpl; [|discriminate].
  intros [= <-]. simpl. eauto.
Qed.

Lemma update_firestore_raise i status url s e s1 :
  update_firestore w d i status url s = (inl e, s1) → st_store s1 = st_store s.
Proof.
  unfold update_firestore, doc_update, raise. destruct (db d); simpl; [|by intros [= _ <-]].
  destruct i as [| | |k| |]; simpl; try (by intros [= _ <-]).
  destruct (firestore_fault w s k _); simpl; [by intros [= _ <-]|].
  destruct (st_store s !! k) as [old|] eqn:Hold; simpl; [discriminate|by intros [= _ <-]].
Qed.

Lemma shutil_rmtree_store p s : st_store (shutil_rmtree w p s).2 = st_store s.
Proof.
  unfold shutil_rmtree. destruct (st_fs s !! p) as [[|]|]; simpl; [done| |done].
  by destruct (rmtree_fault w s p) as [[f fs1]|].
Qed.

Lemma recorded_status_union (st : Store) k (data old : gmap string string) status :
  data !! "processingStatus" = Some status →
  recorded_status (<[k := data ∪ old]> st) k = Some status.
Proof.
  intros H. unfold recorded_status. rewrite lookup_insert_eq. simpl.
  by apply lookup_union_Some_l.
Qed.

Lemma find_config_cases s :
  match find_config j s with
  | (inr _, s1) => s1 = s
  | (inl _, s1) => ∃ l, st_trace s1 = st_trace s ++ [EvPrint l]
  end.
Proof.
  destruct (find_config j s) as [[e|c] s1] eqn:H.
  - apply find_config_raise in H as (_ & H & _). done.
  - by apply find_config_ok in H.
Qed.

Lemma check_artifact_cases s : (check_artifact j s).2 = s.
Proof.
  unfold check_artifact, bind, get_fs, raise, ret.
  by destruct (os_path_exists _ _).
Qed.

Ltac chain T C := rewrite T, <- ?app_assoc in C; simpl in C.

Ltac leaf C c url k :=
  eexists _, c, url, k; split; [exact C|]; split; [|simpl; lia];
  unfold stopped_at, calls, full_run; simpl;
  first
    [ left; reflexivity
    | right; eexists _, _; split; [reflexivity|]; split; [|reflexivity];
      simpl; repeat split; auto ].

(** The calls of the body of the inner [try]: the calls of a full run up
    to some point, with at most the next call failed; all seven of them
    exactly when it returns. *)
Lemma pipeline_calls s :
  ∃ evs c url k,
    st_trace (pipeline w d j s).2 = st_trace s ++ evs ∧
    stopped_at (full_run w j c url) k (calls evs) ∧
    match (pipeline w d j s).1 with
    | inr resp =>
        calls evs = full_run w j c url ∧ resp = job_done url ∧
        st_fs (pipeline w d j s).2 !! job_dir j = None ∧
        (∃ s_u, st_trace s_u = st_trace s ++ take 4 (full_run w j c url) ∧
           blob_upload w s_u (ply_output_path j) (splat_storage_path w j) = inr url) ∧
        ∃ key, doc_id j = JStr key ∧
          recorded_status (st_store (pipeline w d j s).2) key = Some "complete"
    | inl _ => (k < 7)%nat
    end.
Proof.
  unfold pipeline, preprocess, train, export, publish, bind.
  assert (T0 : st_trace s = st_trace s ++ []) by (by rewrite app_nil_r).
  pose proof (acquire_cases s) as C1.
  destruct (acquire w d j s) as [[e|[]] s1]; cbn [fst snd].
  { destruct C1 as [C1|C1]; chain T0 C1; leaf C1 "" "" 0%nat. }
  chain T0 C1.
  pose proof (subprocess_run_cases (process_cmd j) s1) as C2.
  destruct (subprocess_run w (process_cmd j) false true s1) as [[e|cp1] s2]; cbn [fst snd].
  { destruct C2 as (r & Hr & C2). chain C1 C2. leaf C2 "" "" 1%nat. }
  chain C1 C2.
  pose proof (subprocess_run_cases (train_cmd j) s2) as C3.
  destruct (subprocess_run w (train_cmd j) false true s2) as [[e|cp2] s3]; cbn [fst snd].
  { destruct C3 as (r & Hr & C3). chain C2 C3. leaf C3 "" "" 2%nat. }
  chain C2 C3.
  pose proof (find_config_cases s3) as C4.
  destruct (find_config j s3) as [[e|c] s4]; cbn [fst snd].
  { destruct C4 as (l & C4). chain C3 C4. leaf C4 "" "" 3%nat. }
  subst s4.
  pose proof (subprocess_run_cases (export_cmd j c) s3) as C5.
  destruct (subprocess_run w (export_cmd j c) false true s3) as [[e|cp3] s5]; cbn [fst snd].
  { destruct C5 as (r & Hr & C5). chain C3 C5. leaf C5 c "" 3%nat. }
  chain C3 C5.
  pose proof (check_artifact_cases s5) as C6.
  destruct (check_artifact j s5) as [[e|[]] s6]; cbn [fst snd] in *; subst s6.
  { leaf C5 c "" 4%nat. }
  pose proof (upload_cases s5) as C7.
  destruct (upload_splat w d _ _ s5) as [[e|url] s7] eqn:Hup; cbn [fst snd].
  { destruct C7 as [C7|C7]; chain C5 C7; leaf C7 c "" 4%nat. }
  chain C5 C7.
  pose proof (update_firestore_cases (doc_id j) "complete" (Some url) s7) as C8.
  destruct (update_firestore w d _ _ _ s7) as [[e|[]] s8] eqn:Hu; cbn [fst snd].
  { chain C7 C8. leaf C8 c url 5%nat. }
  chain C7 C8.
  pose proof (shutil_rmtree_cases (job_dir j) s8) as C9.
  pose proof (shutil_rmtree_store (job_dir j) s8) as S9.
  destruct (shutil_rmtree w (job_dir j) s8) as [[e|[]] s9]; cbn [fst snd] in *.
  { chain C8 C9. leaf C9 c url 6%nat. }
  destruct C9 as [C9 Hgone]. chain C8 C9.
  eexists _, c, url, 7%nat. split; [exact C9|].
  unfold stopped_at, calls, full_run. simpl. split_and!; auto.
  { exists s5. split; [exact C5|]. by apply upload_ok in Hup. }
  apply update_firestore_ok in Hu as (key & old & Hk & _ & Hst).
  exists key. split; [done|]. rewrite S9, Hst. apply recorded_status_union.
  destruct (truthy_url (Some url)).
  - rewrite lookup_insert_ne by done. apply lookup_singleton_eq.
  - apply lookup_singleton_eq.
Qed.

Lemma cleanup_calls s :
  ∃ tail,
    st_trace ((let* fs := get_fs in
               if os_path_exists fs (job_dir j) then shutil_rmtree w (job_dir j)
               else ret tt) s).2 = st_trace s ++ tail ∧
    (tail = [] ∨ ∃ ok', tail = [EvRmtree (job_dir j) ok']).
Proof.
  unfold bind, get_fs, ret. destruct (os_path_exists _ _); cbn [fst snd].
  - pose proof (shutil_rmtree_cases (job_dir j) s) as C.
    destruct (shutil_rmtree w (job_dir j) s) as [[e|[]] s1]; cbn [fst snd].
    + eexists. split; [exact C|]. eauto.
    + destruct C as [C _]. eexists. split; [exact C|]. eauto.
  - exists []. rewrite app_nil_r. auto.
Qed.

(** The calls of a failure clause: the write of [failed], then at most
    one removal of the job directory. *)
Lemma on_failure_calls e s :
  ∃ evs ok tail,
    st_trace (on_failure w d j e s).2 = st_trace s ++ evs ∧
    calls evs = EvStatus (doc_id j) "failed" None ok :: tail ∧
    (tail = [] ∨ ∃ ok', tail = [EvRmtree (job_dir j) ok']).
Proof.
  assert (H : ∀ s1 (resp : Response) pre,
            st_trace s1 = st_trace s ++ pre → calls pre = [] →
            ∃ evs ok tail,
              st_trace ((mark_failed_and_clean w d j ;; ret resp) s1).2 = st_trace s ++ evs ∧
              calls evs = EvStatus (doc_id j) "failed" None ok :: tail ∧
              (tail = [] ∨ ∃ ok', tail = [EvRmtree (job_dir j) ok'])).
  { intros s1 resp pre T0 Hpre.
    unfold mark_failed_and_clean, try_except. unfold bind at 1 2 3, print.
    pose proof (update_firestore_cases (doc_id j) "failed" None s1) as C1.
    destruct (update_firestore w d _ _ _ s1) as [[e1|[]] s2]; cbn [fst snd].
    all: match goal with |- context [bind get_fs ?k ?x] =>
           destruct (cleanup_calls x) as (tail & C2 & Htail);
           destruct (bind get_fs k x) as [[e2|[]] s3]
         end; cbn [fst snd ret] in *.
    all: rewrite C2; simpl; rewrite C1, T0, <- !app_assoc.
    all: eexists _, _, tail; split; [reflexivity|].
    all: rewrite !calls_app, Hpre; unfold calls at 1 2; simpl.
    all: split; [|exact Htail].
    all: destruct Htail as [->|[ok' ->]]; reflexivity. }
  destruct e as [rc cmd err|f]; simpl; unfold on_called_process_error, on_exception.
  - unfold bind at 1 2, print. simpl.
    eapply (H _ _ [_; _]); [simpl; rewrite <- app_assoc; reflexivity|reflexivity].
  - unfold bind at 1, print. simpl.
    eapply (H _ _ [_]); [reflexivity|reflexivity].
Qed.
End Order.

(** ** A job from start to answer *)

Lemma start_job_early w req s r s0 :
  start_job w req s = (inr (inl r), s0) → r = bad_request.
Proof.
  unfold start_job, bind, lift, ret, raise.
  destruct req as [f|data]; [discriminate|].
  destruct (truthy data); simpl; [|by intros [= <-]].
  destruct (py_contains "videoStoragePath" data) as [?|[|]]; simpl;
    [discriminate| |by intros [= <-]].
  destruct (py_contains "firestoreDocId" data) as [?|[|]]; simpl;
    [discriminate| |by intros [= <-]].
  destruct (py_getitem "videoStoragePath" data) as [?|v]; [discriminate|].
  destruct (py_getitem "firestoreDocId" data) as [?|i]; [discriminate|].
  destruct (py_get "userId" _ data) as [?|u]; [discriminate|].
  destruct (os_makedirs_exist_ok w _ s) as [[e|[]] s1]; [discriminate|].
  destruct v; discriminate.
Qed.

Lemma status_writes_calls t : status_writes (calls t) = status_writes t.
Proof.
  induction t as [|e t IH]; [done|]. unfold calls in *. simpl.
  destruct e; simpl; by rewrite ?IH.
Qed.

(** The calls of a started job, whole: a full run, answered with the
    URL; or a run stopped at some call, followed by the write of [failed]
    and at most one removal, answered with a 500. *)
Lemma job_calls_shape w d req s j s0 :
  initialized d = true →
  start_job w req s = (inr (inr j), s0) →
  ∃ evs c url,
    st_trace (process_video_endpoint w d req s).2 = st_trace s ++ evs ∧
    ((calls evs = full_run w j c url ∧
      (process_video_endpoint w d req s).1 = job_done url ∧
      st_fs (process_video_endpoint w d req s).2 !! job_dir j = None ∧
      (∃ s_u, st_trace s_u = st_trace s ++ take 4 (full_run w j c url) ∧
         blob_upload w s_u (ply_output_path j) (splat_storage_path w j) = inr url) ∧
      ∃ key, doc_id j = JStr key ∧
        recorded_status (st_store (process_video_endpoint w d req s).2) key
        = Some "complete")
     ∨ (∃ k cs ok tail,
          (k < 7)%nat ∧ stopped_at (full_run w j c url) k cs ∧
          calls evs = cs ++ EvStatus (doc_id j) "failed" None ok :: tail ∧
          (tail = [] ∨ ∃ ok', tail = [EvRmtree (job_dir j) ok']) ∧
          resp_code (process_video_endpoint w d req s).1 = 500)).
Proof.
  intros Hi Hs. rewrite (endpoint_of_job _ _ _ _ _ _ Hi Hs).
  apply start_job_trace in Hs as [T0 _].
  destruct (pipeline_calls w d j s0) as (evs1 & c & url & k & T1 & St & Hm).
  unfold run_job, try_except.
  destruct (pipeline w d j s0) as [[e|resp] s1]; cbn [fst snd] in *.
  - destruct (on_failure_calls w d j e s1) as (evs2 & ok & tail & T2 & C2 & Ht).
    destruct (on_failure_spec w d j e s1) as (_ & _ & _ & _ & _ & _ & _ & _ & _ & H500).
    destruct (on_failure w d j e s1) as [[e'|resp] s2]; cbn [fst snd answer] in *.
    + eexists (evs1 ++ evs2 ++ [_]), c, url. simpl.
      rewrite T2, T1, T0, <- !app_assoc. split; [reflexivity|]. right.
      exists k, (calls evs1), ok, tail.
      rewrite !calls_app, C2. unfold calls at 3. simpl. rewrite app_nil_r. done.
    + exists (evs1 ++ evs2), c, url.
      rewrite T2, T1, T0, <- !app_assoc. split; [reflexivity|]. right.
      exists k, (calls evs1), ok, tail. rewrite calls_app, C2. split_and!; auto.
  - destruct Hm as (Hc & -> & Hgone & (s_u & Tu & Hup) & Hst). exists evs1, c, url. simpl.
    rewrite T1, T0. split; [done|]. left. split_and!; try done.
    exists s_u. by rewrite Tu, T0.
Qed.

(** For a request that started a job, whatever fails: the calls made are
    the first calls of the fixed sequence download, [ns-process-data],
    [ns-train], [ns-export], upload, write of [complete], removal of the
    job directory, each made only after all the calls before it
    succeeded.  Either all seven succeed and the answer carries the URL,
    or the sequence stops at the first failure and is followed by the
    write of [failed] and at most one removal, with a 500. *)
Theorem job_calls_follow_the_pipeline w d req s j s0 :
  initialized d = true →
  start_job w req s = (inr (inr j), s0) →
  ∃ evs c url,
    st_trace (process_video_endpoint w d req s).2 = st_trace s ++ evs ∧
    ((calls evs = full_run w j c url ∧
      (process_video_endpoint w d req s).1 = job_done url)
     ∨ (∃ k cs ok tail,
          (k < 7)%nat ∧ stopped_at (full_run w j c url) k cs ∧
          calls evs = cs ++ EvStatus (doc_id j) "failed" None ok :: tail ∧
          (tail = [] ∨ ∃ ok', tail = [EvRmtree (job_dir j) ok']) ∧
          resp_code (process_video_endpoint w d req s).1 = 500)).
Proof.
  intros Hi Hs. destruct (job_calls_shape _ _ _ _ _ _ Hi Hs) as (evs & c & url & T & H).
  exists evs, c, url. split; [done|]. destruct H as [(? & ? & _)|H]; auto.
Qed.

Lemma job_calls_follow_the_pipeline_witness :
  ∃ evs c url,
    st_trace (process_video_endpoint train_leaves_nothing demo_deps demo_request
                demo_state).2 = st_trace demo_state ++ evs ∧
    ((calls evs = full_run train_leaves_nothing demo_job c url ∧
      (process_video_endpoint train_leaves_nothing demo_deps demo_request demo_state).1
      = job_done url)
     ∨ (∃ k cs ok tail,
          (k < 7)%nat ∧ stopped_at (full_run train_leaves_nothing demo_job c url) k cs ∧
          calls evs = cs ++ EvStatus (doc_id demo_job) "failed" None ok :: tail ∧
          (tail = [] ∨ ∃ ok', tail = [EvRmtree (job_dir demo_job) ok']) ∧
          resp_code (process_video_endpoint train_leaves_nothing demo_deps demo_request
                       demo_state).1 = 500)).
Proof.
  apply (job_calls_follow_the_pipeline train_leaves_nothing demo_deps demo_request
           demo_state demo_job
           (start_job train_leaves_nothing demo_request demo_state).2).
  - reflexivity.
  - vm_compute. reflexivity.
Defined.

(** The answer is 200 only after everything was done: a job was
    started, the seven calls of a full run were made and succeeded (and
    no other call), the URL in the body and in the write of [complete]
    is the one the upload returned when it was called, after the export,
    on the model file and the storage path of the job, the document of
    the job holds [complete], and the job directory is gone. *)
Theorem answer_200_means_done w d req s :
  resp_code (process_video_endpoint w d req s).1 = 200 →
  ∃ j s0 c url key evs s_u,
    initialized d = true ∧
    start_job w req s = (inr (inr j), s0) ∧
    (process_video_endpoint w d req s).1 = job_done url ∧
    st_trace (process_video_endpoint w d req s).2 = st_trace s ++ evs ∧
    calls evs = full_run w j c url ∧
    st_trace s_u = st_trace s ++ take 4 (full_run w j c url) ∧
    blob_upload w s_u (ply_output_path j) (splat_storage_path w j) = inr url ∧
    st_fs (process_video_endpoint w d req s).2 !! job_dir j = None ∧
    doc_id j = JStr key ∧
    recorded_status (st_store (process_video_endpoint w d req s).2) key = Some "complete".
Proof.
  intros H200.
  destruct (initialized d) eqn:Hi.
  2: { unfold process_video_endpoint in H200. rewrite Hi in H200. discriminate. }
  destruct (start_job w req s) as [[e|[early|j]] s0] eqn:Hs.
  - unfold process_video_endpoint in H200. rewrite Hi in H200. simpl in H200.
    unfold bind in H200. rewrite Hs in H200. discriminate.
  - unfold process_video_endpoint in H200. rewrite Hi in H200. simpl in H200.
    unfold bind in H200. rewrite Hs in H200.
    apply start_job_early in Hs as ->. discriminate.
  - destruct (job_calls_shape _ _ _ _ _ _ Hi Hs) as (evs & c & url & T & H).
    destruct H as [(Hc & Hr & Hgone & (s_u & Tu & Hup) & key & Hk & Hst)
                  |(k & cs & ok & tail & _ & _ & _ & _ & H500)].
    + exists j, s0, c, url, key, evs, s_u. done.
    + rewrite H500 in H200. discriminate.
Qed.

Lemma answer_200_means_done_witness :
  ∃ j s0 c url key evs s_u,
    initialized demo_deps = true ∧
    start_job demo_world demo_request demo_state = (inr (inr j), s0) ∧
    (process_video_endpoint demo_world demo_deps demo_request demo_state).1 = job_done url ∧
    st_trace (process_video_endpoint demo_world demo_deps demo_request demo_state).2
    = st_trace demo_state ++ evs ∧
    calls evs = full_run demo_world j c url ∧
    st_trace s_u = st_trace demo_state ++ take 4 (full_run demo_world j c url) ∧
    blob_upload demo_world s_u (ply_output_path j) (splat_storage_path demo_world j)
    = inr url ∧
    st_fs (process_video_endpoint demo_world demo_deps demo_request demo_state).2
      !! job_dir j = None ∧
    doc_id j = JStr key ∧
    recorded_status
      (st_store (process_video_endpoint demo_world demo_deps demo_request demo_state).2) key
    = Some "complete".
Proof.
  apply (answer_200_means_done demo_world demo_deps demo_request demo_state).
  vm_compute. reflexivity.
Defined.

(** The endpoint answers with 200, 400, 500 or 503, nothing else. *)
Theorem endpoint_codes w d req s :
  resp_code (process_video_endpoint w d req s).1 ∈ [200; 400; 500; 503].
Proof.
  destruct (initialized d) eqn:Hi.
  2: { unfold process_video_endpoint. rewrite Hi. simpl. set_solver. }
  destruct (start_job w req s) as [[e|[early|j]] s0] eqn:Hs.
  - unfold process_video_endpoint. rewrite Hi. simpl.
    unfold bind. rewrite Hs. simpl. set_solver.
  - unfold process_video_endpoint. rewrite Hi. simpl.
    unfold bind. rewrite Hs. apply start_job_early in Hs as ->. simpl. set_solver.
  - destruct (job_calls_shape _ _ _ _ _ _ Hi Hs) as (evs & c & url & T & H).
    destruct H as [(_ & -> & _)|(k & cs & ok & tail & _ & _ & _ & _ & ->)]; simpl; set_solver.
Qed.

(** A started job never ends without a status write, whatever fails:
    with a 200 the one write is a successful [complete]; otherwise the
    answer is a 500 and the last write attempted is [failed]. *)
Theorem started_job_ends_with_status_write w d req s j s0 :
  initialized d = true →
  start_job w req s = (inr (inr j), s0) →
  ∃ evs,
    st_trace (process_video_endpoint w d req s).2 = st_trace s ++ evs ∧
    ((resp_code (process_video_endpoint w d req s).1 = 200 ∧
      status_writes evs = [(doc_id j, "complete", true)])
     ∨ (resp_code (process_video_endpoint w d req s).1 = 500 ∧
        ∃ ok, last (status_writes evs) = Some (doc_id j, "failed", ok))).
Proof.
  intros Hi Hs. destruct (job_calls_shape _ _ _ _ _ _ Hi Hs) as (evs & c & url & T & H).
  exists evs. split; [done|]. rewrite <- (status_writes_calls evs).
  destruct H as [(-> & -> & _)|(k & cs & ok & tail & _ & _ & -> & Ht & H500)].
  - left. done.
  - right. split; [done|]. exists ok.
    rewrite status_writes_app. simpl.
    replace (status_writes tail) with (@nil (json * string * bool))
      by (destruct Ht as [->|[ok' ->]]; reflexivity).
    apply last_snoc.
Qed.

Lemma started_job_ends_with_status_write_witness :
  ∃ evs,
    st_trace (process_video_endpoint cleanup_fails demo_deps demo_request demo_state).2
    = st_trace demo_state ++ evs ∧
    ((resp_code (process_video_endpoint cleanup_fails demo_deps demo_request
                   demo_state).1 = 200 ∧
      status_writes evs = [(doc_id demo_job, "complete", true)])
     ∨ (resp_code (process_video_endpoint cleanup_fails demo_deps demo_request
                     demo_state).1 = 500 ∧
        ∃ ok, last (status_writes evs) = Some (doc_id demo_job, "failed", ok))).
Proof.
  apply (started_job_ends_with_status_write cleanup_fails demo_deps demo_request
           demo_state demo_job (start_job cleanup_fails demo_request demo_state).2).
  - reflexivity.
  - vm_compute. reflexivity.
Defined.

(** ** Status updates *)

(** A status update that returns has found the document: it now holds
    the new status; its URL is the one given when one is given and is not
    empty, and the URL it had otherwise; the file system is untouched. *)
Theorem update_firestore_records w d i status url s s1 :
  update_firestore w d i status url s = (inr tt, s1) →
  ∃ k old,
    i = JStr k ∧ st_store s !! k = Some old ∧
    recorded_status (st_store s1) k = Some status ∧
    st_store s1 !! k ≫= (λ doc, doc !! "splatModelUrl")
    = (if truthy_url url then url else old !! "splatModelUrl") ∧
    st_fs s1 = st_fs s.
Proof.
  intros H. pose proof H as H'.
  apply update_firestore_ok in H as (k & old & -> & Hold & Hst).
  exists k, old. split_and!; [done..| | |].
  - rewrite Hst. apply recorded_status_union. destruct (truthy_url url).
    + rewrite lookup_insert_ne by done. apply lookup_singleton_eq.
    + apply lookup_singleton_eq.
  - rewrite Hst, lookup_insert_eq. simpl. destruct url as [u|]; simpl.
    + destruct (negb (u =? "")%string).
      * apply lookup_union_Some_l. apply lookup_insert_eq.
      * rewrite lookup_union_r; [done|]. by apply lookup_singleton_ne.
    + rewrite lookup_union_r; [done|]. by apply lookup_singleton_ne.
  - revert H'. unfold update_firestore, doc_update, raise.
    destruct (db d); simpl; [|discriminate].
    destruct (firestore_fault w s k _); simpl; [discriminate|].
    rewrite Hold. simpl. by intros [= <-].
Qed.

Lemma update_firestore_records_witness :
  ∃ k old,
    JStr "doc1" = JStr k ∧ st_store demo_state !! k = Some old ∧
    recorded_status
      (st_store (update_firestore demo_world demo_deps (JStr "doc1") "failed" None
                   demo_state).2) k = Some "failed" ∧
    st_store (update_firestore demo_world demo_deps (JStr "doc1") "failed" None
                demo_state).2 !! k ≫= (λ doc, doc !! "splatModelUrl")
    = (if truthy_url None then None else old !! "splatModelUrl") ∧
    st_fs (update_firestore demo_world demo_deps (JStr "doc1") "failed" None demo_state).2
    = st_fs demo_state.
Proof.
  apply (update_firestore_records demo_world demo_deps (JStr "doc1") "failed" None
           demo_state).
  vm_compute. reflexivity.
Defined.

(** Without a client, with an identifier that is not a string, or for a
    document that does not exist, the update raises and the store is as
    before: a missing document is not created. *)
Theorem update_firestore_refuses w d i status url s :
  (db d = None ∨ (∀ k, i ≠ JStr k) ∨ ∃ k, i = JStr k ∧ st_store s !! k = None) →
  (∃ e, (update_firestore w d i status url s).1 = inl e) ∧
  st_store (update_firestore w d i status url s).2 = st_store s ∧
  st_trace (update_firestore w d i status url s).2
  = st_trace s ++ [EvStatus i status url false].
Proof.
  intros H. unfold update_firestore, doc_update, raise. simpl.
  destruct (db d) as [h|]; simpl; [|eauto].
  destruct H as [?|[Hn|(k & -> & Hk)]]; [discriminate| |].
  - destruct i as [| | |k| |]; simpl; eauto. by destruct (Hn k).
  - destruct (firestore_fault w s k _); simpl; [eauto|]. rewrite Hk. simpl. eauto.
Qed.

Lemma update_firestore_refuses_witness :
  (∃ e, (update_firestore demo_world demo_deps (JStr "nobody") "failed" None
           demo_state).1 = inl e) ∧
  st_store (update_firestore demo_world demo_deps (JStr "nobody") "failed" None
              demo_state).2 = st_store demo_state ∧
  st_trace (update_firestore demo_world demo_deps (JStr "nobody") "failed" None
              demo_state).2
  = st_trace demo_state ++ [EvStatus (JStr "nobody") "failed" None false].
Proof.
  apply (update_firestore_refuses demo_world demo_deps (JStr "nobody") "failed" None
           demo_state).
  right. right. exists "nobody". split; [reflexivity|]. vm_compute. reflexivity.
Defined.

(** ** Start-up *)

(** Both handles are there exactly when both variables are set and not
    empty and every step of the initialisation succeeds; and the storage
    handle is never there without the Firestore one. *)
Theorem boot_handles environ sdk :
  (initialized (boot_deps (init_firebase environ sdk)) = true ↔
   env_set (environ "FIREBASE_SERVICE_ACCOUNT_JSON") = true ∧
   env_set (environ "FIREBASE_STORAGE_BUCKET") = true ∧
   ∃ info,
     json_loads sdk (default "" (environ "FIREBASE_SERVICE_ACCOUNT_JSON")) = inr info ∧
     credentials_Certificate sdk info = None ∧
     initialize_app sdk info (default "" (environ "FIREBASE_STORAGE_BUCKET")) = None ∧
     firestore_client sdk = None ∧
     storage_bucket sdk = None) ∧
  (is_Some (bucket (boot_deps (init_firebase environ sdk))) →
   is_Some (db (boot_deps (init_firebase environ sdk)))).
Proof.
  unfold init_firebase.
  destruct (env_set (environ "FIREBASE_SERVICE_ACCOUNT_JSON")) eqn:E1; simpl.
  2: { split; [split; [discriminate|intros (? & _); discriminate]|by intros [? ?]]. }
  destruct (env_set (environ "FIREBASE_STORAGE_BUCKET")) eqn:E2; simpl.
  2: { split; [split; [discriminate|intros (_ & ? & _); discriminate]|by intros [? ?]]. }
  destruct (json_loads sdk _) as [f|info] eqn:Hj; simpl.
  { split; [split; [discriminate|]|by intros [? ?]].
    intros (_ & _ & i' & ? & _). discriminate. }
  destruct (credentials_Certificate sdk info) eqn:Hc; simpl.
  { split; [split; [discriminate|]|by intros [? ?]].
    intros (_ & _ & i' & ? & ? & _). congruence. }
  destruct (initialize_app sdk info _) eqn:Ha; simpl.
  { split; [split; [discriminate|]|by intros [? ?]].
    intros (_ & _ & i' & ? & _ & ? & _). congruence. }
  destruct (firestore_client sdk) eqn:Hf; simpl.
  { split; [split; [discriminate|]|by intros [? ?]].
    intros (_ & _ & i' & _ & _ & _ & ? & _). congruence. }
  destruct (storage_bucket sdk) eqn:Hb; simpl.
  { split; [split; [discriminate|]|by intros [? ?]].
    intros (_ & _ & i' & _ & _ & _ & _ & ?). congruence. }
  split; [|eauto]. split; [|done]. intros _. split_and!; [done..|]. eauto 6.
Qed.

Lemma boot_handles_witness :
  initialized (boot_deps (init_firebase demo_environ demo_sdk)) = true ∧
  initialized
    (boot_deps (init_firebase demo_environ
                  (mkSdk (json_loads demo_sdk) (credentials_Certificate demo_sdk)
                         (initialize_app demo_sdk) None
                         (Some (Fault "ValueError" "Storage bucket name not specified")))))
  = false.
Proof.
  split.
  - apply (boot_handles demo_environ demo_sdk). split_and!; [reflexivity..|].
    eexists. split_and!; reflexivity.
  - destruct (initialized _) eqn:E; [|reflexivity].
    apply (boot_handles demo_environ) in E as (_ & _ & i & _ & _ & _ & _ & E).
    discriminate.
Defined.

(** When either variable is unset or empty, the SDK is not called at
    all, both handles stay [None], the health check reports
    [firebase_initialized] false with a 200, and every processing request
    is answered 503 without touching anything. *)
Theorem boot_without_environment environ sdk w req s :
  env_set (environ "FIREBASE_SERVICE_ACCOUNT_JSON") = false
  ∨ env_set (environ "FIREBASE_STORAGE_BUCKET") = false →
  boot_calls (init_firebase environ sdk) = [] ∧
  boot_deps (init_firebase environ sdk) = mkDeps None None ∧
  health_check (boot_deps (init_firebase environ sdk))
  = mkResponse (HealthBody "healthy" false) 200 ∧
  (process_video_endpoint w (boot_deps (init_firebase environ sdk)) req s).1 = not_ready ∧
  calls (st_trace (process_video_endpoint w (boot_deps (init_firebase environ sdk)) req s).2)
  = calls (st_trace s).
Proof.
  intros H. unfold init_firebase.
  destruct (env_set (environ "FIREBASE_SERVICE_ACCOUNT_JSON")); simpl.
  - destruct H as [? | ->]; [discriminate|]. simpl.
    split_and!; try done. apply calls_print.
  - split_and!; try done. apply calls_print.
Qed.

Lemma boot_without_environment_witness :
  boot_calls (init_firebase (λ _, None) demo_sdk) = [] ∧
  boot_deps (init_firebase (λ _, None) demo_sdk) = mkDeps None None ∧
  health_check (boot_deps (init_firebase (λ _, None) demo_sdk))
  = mkResponse (HealthBody "healthy" false) 200 ∧
  (process_video_endpoint demo_world (boot_deps (init_firebase (λ _, None) demo_sdk))
     demo_request demo_state).1 = not_ready ∧
  calls (st_trace (process_video_endpoint demo_world
                     (boot_deps (init_firebase (λ _, None) demo_sdk))
                     demo_request demo_state).2)
  = calls (st_trace demo_state).
Proof.
  apply (boot_without_environment (λ _, None) demo_sdk demo_world demo_request demo_state).
  left. reflexivity.
Defined.

(** ** Paths of a job *)

#[local] Arguments String.append !_ _ / : simpl nomatch.

Lemma append_assoc (a b c : string) : (a +:+ b) +:+ c = a +:+ b +:+ c.
Proof. induction a as [|x a IH]; simpl; [done|]. f_equal. exact IH. Qed.

Lemma prefix_append (a b : string) : String.prefix a (a +:+ b) = true.
Proof.
  induction a as [|x a IH]; [by destruct b|].
  change (String.prefix (String x a) (String x a +:+ b))
    with (match ascii_dec x x with
          | left _ => String.prefix a (a +:+ b)
          | right _ => false
          end).
  destruct (ascii_dec x x); done.
Qed.

Lemma has_sep_basename_from cur p :
  (has_sep p = false → has_sep cur = false) → has_sep (basename_from cur p) = false.
Proof.
  revert cur. induction p as [|c r IH]; intros cur H; simpl; [by apply H|].
  destruct (is_sep c) eqn:Hc.
  - by apply IH.
  - apply IH. intros Hr. apply H. simpl. by rewrite Hc.
Qed.

Lemma has_sep_basename p : has_sep (os_path_basename p) = false.
Proof. by apply has_sep_basename_from. Qed.

Lemma no_sep_no_slash_prefix b : has_sep b = false → String.prefix "/" b = false.
Proof.
  destruct b as [|c r]; [done|]. intros H.
  change (has_sep (String c r)) with (is_sep c || has_sep r) in H.
  apply orb_false_elim in H as [Hc _].
  change (String.prefix "/" (String c r))
    with (match ascii_dec "/" c with
          | left _ => String.prefix "" r
          | right _ => false
          end).
  destruct (ascii_dec "/" c) as [<-|]; [by vm_compute in Hc|done].
Qed.

Lemma endswith_sep_append (a b : string) :
  b ≠ "" → endswith_sep (a +:+ b) = endswith_sep b.
Proof.
  intros Hb. induction a as [|x a IH]; simpl; [done|].
  destruct (a +:+ b) eqn:E; [|done].
  destruct a; simpl in E; [done|discriminate].
Qed.

Lemma no_sep_not_endswith b : has_sep b = false → endswith_sep b = false.
Proof.
  induction b as [|c r IH]; simpl; [done|]. intros H.
  apply orb_false_elim in H as [Hc Hr]. destruct r; [done|by apply IH].
Qed.

Lemma join_plain (a b : string) :
  a ≠ "" → endswith_sep a = false → has_sep b = false →
  os_path_join a b = a +:+ "/" +:+ b.
Proof.
  intros Ha He Hb. unfold os_path_join.
  rewrite (no_sep_no_slash_prefix _ Hb), He.
  apply String.eqb_neq in Ha as ->. done.
Qed.

Lemma drop_chars_append (a b : string) : drop_chars (String.length a) (a +:+ b) = b.
Proof. induction a as [|x a IH]; simpl; [by destruct b|exact IH]. Qed.

Lemma child_name_join (p n : string) :
  n ≠ "" → has_sep n = false → child_name p (p +:+ "/" +:+ n) = Some n.
Proof.
  intros Hn Hs. unfold child_name.
  rewrite <- append_assoc, prefix_append, drop_chars_append, Hs.
  apply String.eqb_neq in Hn as ->. done.
Qed.

(** For a started job whose identifier is not empty and has no
    separator (as the text of a UUID), the job directory is
    [/tmp/nerfstudio_jobs/<id>], the data and output directories are
    its entries [nerf_data] and [nerf_output], and the video is
    downloaded to the job directory joined with the base name of the
    storage path, which has no separator whatever directories the
    storage path goes through.  That local path is an entry of the job
    directory when the base name is a proper name; the code does not
    exclude the base names [..], [.] and the empty one, for which the
    local path is the parent directory or the job directory itself. *)
Theorem job_paths_inside_job_dir w req s j s0 :
  start_job w req s = (inr (inr j), s0) →
  job_id j ≠ "" → has_sep (job_id j) = false →
  job_dir j = "/tmp/nerfstudio_jobs/" +:+ job_id j ∧
  has_sep (os_path_basename (video_storage_path j)) = false ∧
  local_video_path j = job_dir j +:+ "/" +:+ os_path_basename (video_storage_path j) ∧
  data_dir j = job_dir j +:+ "/nerf_data" ∧
  output_dir j = job_dir j +:+ "/nerf_output" ∧
  child_name (job_dir j) (data_dir j) = Some "nerf_data" ∧
  child_name (job_dir j) (output_dir j) = Some "nerf_output" ∧
  (os_path_basename (video_storage_path j) ∉ [""; "."; ".."] →
   child_name (job_dir j) (local_video_path j)
   = Some (os_path_basename (video_storage_path j))).
Proof.
  intros Hs Hne Hsep.
  assert (Hfields : ∃ p, video_storage_path j = p ∧
            job_dir j = os_path_join "/tmp/nerfstudio_jobs" (job_id j) ∧
            local_video_path j = os_path_join (job_dir j) (os_path_basename p) ∧
            data_dir j = os_path_join (job_dir j) "nerf_data" ∧
            output_dir j = os_path_join (job_dir j) "nerf_output").
  { revert Hs. unfold start_job, bind, lift, ret, raise.
    destruct req as [f|data]; [discriminate|].
    destruct (truthy data); simpl; [|discriminate].
    destruct (py_contains "videoStoragePath" data) as [?|[|]]; simpl; try discriminate.
    destruct (py_contains "firestoreDocId" data) as [?|[|]]; simpl; try discriminate.
    destruct (py_getitem "videoStoragePath" data) as [?|v]; [discriminate|].
    destruct (py_getitem "firestoreDocId" data) as [?|i]; [discriminate|].
    destruct (py_get "userId" _ data) as [?|u]; [discriminate|].
    destruct (os_makedirs_exist_ok w _ s) as [[e|[]] s1]; [discriminate|].
    destruct v; try discriminate. intros [= <- _]. simpl. eauto 6. }
  destruct Hfields as (p & Hp & Hd & Hl & Hdata & Hout).
  assert (Hjd : job_dir j = "/tmp/nerfstudio_jobs/" +:+ job_id j).
  { rewrite Hd. by rewrite join_plain. }
  assert (Hjne : job_dir j ≠ "") by (by rewrite Hjd).
  assert (Hje : endswith_sep (job_dir j) = false).
  { rewrite Hjd, endswith_sep_append by done. by apply no_sep_not_endswith. }
  pose proof (has_sep_basename p) as Hb.
  rewrite Hl, Hdata, Hout, Hp.
  rewrite !join_plain by done.
  split_and!; try done.
  - by apply (child_name_join (job_dir j) "nerf_data").
  - by apply (child_name_join (job_dir j) "nerf_output").
  - intros Hproper. apply child_name_join; [|done].
    intros E. apply Hproper. rewrite E. constructor.
Qed.

Lemma job_paths_inside_job_dir_witness :
  job_dir traversal_job = "/tmp/nerfstudio_jobs/" +:+ job_id traversal_job ∧
  has_sep (os_path_basename (video_storage_path traversal_job)) = false ∧
  local_video_path traversal_job
  = job_dir traversal_job +:+ "/" +:+ os_path_basename (video_storage_path traversal_job) ∧
  data_dir traversal_job = job_dir traversal_job +:+ "/nerf_data" ∧
  output_dir traversal_job = job_dir traversal_job +:+ "/nerf_output" ∧
  child_name (job_dir traversal_job) (data_dir traversal_job) = Some "nerf_data" ∧
  child_name (job_dir traversal_job) (output_dir traversal_job) = Some "nerf_output" ∧
  child_name (job_dir traversal_job) (local_video_path traversal_job) = Some "clip.webm".
Proof.
  destruct (job_paths_inside_job_dir demo_world traversal_request demo_state traversal_job
              (start_job demo_world traversal_request demo_state).2)
    as (H1 & H2 & H3 & H4 & H5 & H6 & H7 & H8).
  - vm_compute. reflexivity.
  - discriminate.
  - reflexivity.
  - split_and!; [exact H1|exact H2|exact H3|exact H4|exact H5|exact H6|exact H7|].
    apply H8. intros Hin.
    repeat (apply elem_of_cons in Hin as [Hin|Hin]; [discriminate Hin|]).
    inversion Hin.
Defined.

(** ** The configuration that is found *)

(** When the search for [config.yml] returns a path, nothing has
    changed, the path exists, and it is the [config.yml] of the
    subdirectory of the run directory whose name is the greatest. *)
Theorem find_config_returns_latest j s c s1 :
  find_config j s = (inr c, s1) →
  s1 = s ∧
  os_path_exists (st_fs s) c = true ∧
  ∃ entries m,
    os_listdir (st_fs s) (splatfacto_output_dir j) = inr entries ∧
    m ∈ entries ∧
    os_path_isdir (st_fs s) (os_path_join (splatfacto_output_dir j) m) = true ∧
    (∀ n, n ∈ entries →
          os_path_isdir (st_fs s) (os_path_join (splatfacto_output_dir j) n) = true →
          String.le n m) ∧
    c = os_path_join (os_path_join (splatfacto_output_dir j) m) "config.yml".
Proof.
  intros H. pose proof (find_config_ok _ _ _ _ H) as ->. split; [done|].
  revert H. unfold find_config, try_except, bind, get_fs, lift, raise, ret, print.
  destruct (latest_training_dir _ _) as [e|latest] eqn:Hl; simpl; [discriminate|].
  destruct (os_path_exists _ _) eqn:Hex; simpl; [|discriminate].
  intros [= <-]. split; [done|].
  revert Hl. unfold latest_training_dir, training_dirs.
  destruct (os_listdir _ _) as [e|entries] eqn:Hls; [discriminate|].
  unfold py_last.
  destruct (last _) as [m|] eqn:Hlast; [|discriminate]. intros [= <-].
  pose proof (sorted_last_greatest _ m (list_sort_sorted _) Hlast) as Hmax.
  apply last_Some_elem_of in Hlast.
  rewrite list_sort_elem_of, elem_of_bool_filter in Hlast. destruct Hlast as [Hm Hd].
  exists entries, m. split_and!; try done.
  intros n Hn Hnd. apply Hmax. rewrite list_sort_elem_of, elem_of_bool_filter. done.
Qed.

Lemma find_config_returns_latest_witness :
  ∃ entries m,
    os_listdir trained_fs (splatfacto_output_dir demo_job) = inr entries ∧
    m ∈ entries ∧
    os_path_isdir trained_fs (os_path_join (splatfacto_output_dir demo_job) m) = true ∧
    (∀ n, n ∈ entries →
          os_path_isdir trained_fs (os_path_join (splatfacto_output_dir demo_job) n) = true →
          String.le n m) ∧
    "/tmp/nerfstudio_jobs/job-1/nerf_output/splatfacto/2024-02-01_000000/config.yml"
    = os_path_join (os_path_join (splatfacto_output_dir demo_job) m) "config.yml".
Proof.
  destruct (find_config_returns_latest demo_job (mkState trained_fs ∅ [])
              "/tmp/nerfstudio_jobs/job-1/nerf_output/splatfacto/2024-02-01_000000/config.yml"
              (mkState trained_fs ∅ [])) as (_ & _ & H).
  - vm_compute. reflexivity.
  - exact H.
Defined.
